(** * boilerTempPhoto: 360-degree stitching service and batch tool

    A shallow embedding of [Python/app.py] (the FastAPI service) and
    [Python/stitch_images.py] (the standalone script), and the properties of
    the loader, the stitch orchestration, the equirectangular coordinate map
    and the HTTP error mapping.

    Conventions of the embedding:
    - Python [int] is [Z]; Python [float] arithmetic is exact arithmetic over
      [Q] (the rounding of binary64 operations and the narrowing of the map
      entries to float32 are not modelled); [np.pi] is the rational value of
      the binary64 constant.
    - Code that raises returns [Err e]; code that prints or calls OpenCV
      records an event in a trace.
    - OpenCV, the file system and pathlib are an environment: their
      operations are fields of a record, the engine is a black box. *)

From Stdlib Require Import ZArith QArith Qfield String Ascii Lia Lqa.
From Stdlib Require Import DecimalString.
From stdpp Require Import base option list strings gmap sorting.

Local Open Scope Z_scope.

(** ** Python runtime: exceptions, results, loops *)

Module Py.

Inductive exn : Type :=
| ValueError (msg : string)
| RuntimeError (msg : string)
| AttributeError (msg : string)
| OSError (msg : string)
| ZeroDivisionError
| IndexError
| HTTPException (status_code : Z) (detail : string).

Inductive result (A : Type) : Type :=
| Ok (a : A)
| Err (e : exn).
Arguments Ok {A} a.
Arguments Err {A} e.

Definition rbind {A B} (r : result A) (k : A -> result B) : result B :=
  match r with
  | Ok a => k a
  | Err e => Err e
  end.

(** [str(e)] of the exceptions above: the message they were built with. *)
Definition str_exn (e : exn) : string :=
  match e with
  | ValueError m | RuntimeError m | AttributeError m | OSError m => m
  | ZeroDivisionError => "division by zero"
  | IndexError => "index out of bounds"
  | HTTPException _ d => d
  end.

(** [str(n)] for an [int]. *)
Definition str_int (n : Z) : string := NilZero.string_of_int (Z.to_int n).

(** [range(n)]: empty when [n <= 0]. *)
Definition range (n : Z) : list Z := Z.of_nat <$> seq 0 (Z.to_nat n).

(** [for x in xs: s = body(x, s)], stopping at the first exception. *)
Fixpoint for_ {S : Type} (xs : list Z) (body : Z -> S -> result S) (s : S)
  : result S :=
  match xs with
  | [] => Ok s
  | x :: xs' => rbind (body x s) (for_ xs' body)
  end.

(** [a / b] on two [int]s (true division). *)
Definition truediv (a b : Z) : result Q :=
  if b =? 0 then Err ZeroDivisionError else Ok (inject_Z a / inject_Z b)%Q.

End Py.

Import Py.

#[global] Instance result_ret : MRet result := @Ok.
#[global] Instance result_bind : MBind result := fun A B k r => rbind r k.

(** ** numpy: the two float maps *)

Module Numpy.

(** [np.pi], the binary64 number 0x1.921fb54442d18p+1. *)
Definition pi : Q := 884279719003555 # 281474976710656.

(** A two-dimensional float array, as its list of rows. *)
Abbreviation ndarray2 := (list (list Q)).

(** [np.zeros((rows, cols), np.float32)]. *)
Definition zeros (rows cols : Z) : result ndarray2 :=
  if (rows <? 0) || (cols <? 0)
  then Err (ValueError "negative dimensions are not allowed")
  else Ok (replicate (Z.to_nat rows) (replicate (Z.to_nat cols) 0%Q)).

(** An index [i] into an axis of length [n]: negative indices count from
    the end, anything outside [-n, n) is an [IndexError]. *)
Definition norm_index (n : nat) (i : Z) : result nat :=
  if (0 <=? i) && (i <? Z.of_nat n) then Ok (Z.to_nat i)
  else if (- Z.of_nat n <=? i) && (i <? 0) then Ok (Z.to_nat (Z.of_nat n + i))
  else Err IndexError.

(** [a[i, j] = v]. *)
Definition setitem (a : ndarray2) (i j : Z) (v : Q) : result ndarray2 :=
  i' ← norm_index (length a) i;
  match a !! i' with
  | None => Err IndexError
  | Some row =>
      j' ← norm_index (length row) j;
      Ok (<[i' := <[j' := v]> row]> a)
  end.

(** [a[i, j]] for in-range, non-negative indices. *)
Definition get2 (a : ndarray2) (i j : nat) : option Q :=
  a !! i ≫= (.!! j).

(** The array has [rows] rows of [cols] entries each. *)
Definition has_shape (a : ndarray2) (rows cols : nat) : Prop :=
  length a = rows /\ Forall (fun r => length r = cols) a.

End Numpy.

(** ** The environment: OpenCV, the file system, the trace *)

Module Env.

Definition bytes : Type := list Byte.byte.

(** A BGR pixel of three 8-bit samples; an image is its list of rows. *)
Definition pixel : Type := (Byte.byte * Byte.byte * Byte.byte)%type.
Abbreviation image := (list (list pixel)).

(** [img.shape[:2]]: rows, then columns. *)
Definition shape (img : image) : nat * nat :=
  (length img, length (default [] (head img))).

(** [cv2.Stitcher_SCANS] and [cv2.Stitcher_PANORAMA]. *)
Inductive StitchMode : Type := SCANS | PANORAMA.

#[global] Instance StitchMode_eq_dec : EqDecision StitchMode.
Proof. solve_decision. Defined.

(** [cv2.Stitcher_OK]; the failure statuses of OpenCV are 1, 2 and 3. *)
Definition Stitcher_OK : Z := 0.

(** What a run does to the outside world, in order. *)
Inductive event : Type :=
| Print (line : string)
| Imdecode (data : bytes)
| Imread (path : string)
| Stitch (mode : StitchMode)
| Remap
| Imencode
| Imwrite (path : string).

(** OpenCV as the code uses it. [stitch] is the engine (status and
    panorama), [sample] the interpolation of [remap] at one source
    coordinate, border mode included. *)
Record cv2 : Type := {
  has_Stitcher_SCANS : bool;
  has_Stitcher_PANORAMA : bool;
  imdecode : bytes -> option image;
  imread : string -> option image;
  stitch : StitchMode -> list image -> Z * image;
  sample : image -> Q -> Q -> pixel;
  imencode : string -> image -> Z -> result (bool * bytes);
  imwrite : string -> image -> result bool
}.

(** A directory entry: its file name and whether [is_file()] holds. *)
Record dirent : Type := { d_name : string; d_is_file : bool }.

(** pathlib over the file system. [path_str folder name] is
    [str(Path(folder) / name)], [parent_str folder name] is
    [str(Path(folder).parent / name)]. *)
Record os : Type := {
  path_exists : string -> bool;
  iterdir : string -> result (list dirent);
  path_str : string -> string -> string;
  parent_str : string -> string -> string
}.

(** A computation: the events so far and its outcome. *)
Record M (A : Type) : Type := mkM { trace : list event; outcome : result A }.
Arguments mkM {A} trace outcome.
Arguments trace {A} m.
Arguments outcome {A} m.

Definition ret {A} (a : A) : M A := mkM [] (Ok a).
Definition raise {A} (e : exn) : M A := mkM [] (Err e).
Definition emit (ev : event) : M unit := mkM [ev] (Ok tt).
Definition lift {A} (r : result A) : M A := mkM [] r.

Definition bind {A B} (m : M A) (k : A -> M B) : M B :=
  match outcome m with
  | Ok a => mkM (trace m ++ trace (k a)) (outcome (k a))
  | Err e => mkM (trace m) (Err e)
  end.

(** [try: body  except Exception as e: handler(e)]. *)
Definition try_ {A} (body : M A) (handler : exn -> M A) : M A :=
  match outcome body with
  | Ok a => body
  | Err e => mkM (trace body ++ trace (handler e)) (outcome (handler e))
  end.

(** [for x in xs: s = body(x, s)]. *)
Fixpoint for_each {A S : Type} (xs : list A) (body : A -> S -> M S) (s : S)
  : M S :=
  match xs with
  | [] => ret s
  | x :: xs' => bind (body x s) (for_each xs' body)
  end.

Definition print (line : string) : M unit := emit (Print line).

End Env.

Import Env.

#[global] Instance M_ret : MRet M := @ret.
#[global] Instance M_bind : MBind M := fun A B k m => bind m k.

(** ** The equirectangular coordinate map

    The two loops of [pano_to_equirectangular], which are the same text in
    [app.py] (lines 67-79) and [stitch_images.py] (lines 90-102). *)

Module Projector.
Import Numpy.
Local Open Scope Q_scope.

Definition maps : Type := (ndarray2 * ndarray2)%type.

(** The body of the inner loop, for the output pixel [(x, y)]. *)
Definition pixel_body (h w : nat) (output_w : Z) (y : Z) (theta : Q)
    (x : Z) (m : maps) : result maps :=
  let '(x_map, y_map) := m in
  q ← truediv x output_w;
  let phi := (q - (1#2)) * 2 * pi in
  let xs := (1#2) * inject_Z (Z.of_nat w) * (phi / pi + 1) in
  let ys := (1#2) * inject_Z (Z.of_nat h) * (theta / (pi / 2) + 1) in
  x_map ← setitem x_map y x xs;
  y_map ← setitem y_map y x ys;
  Ok (x_map, y_map).

(** The body of the outer loop, for the output row [y]. *)
Definition row_body (h w : nat) (output_w output_h : Z) (y : Z) (m : maps)
  : result maps :=
  q ← truediv y output_h;
  let theta := (q - (1#2)) * pi in
  for_ (range output_w) (pixel_body h w output_w y theta) m.

(** [x_map] and [y_map] as they are when [cv2.remap] is called, for a
    panorama of [h] rows and [w] columns. *)
Definition build_maps (h w : nat) (output_w output_h : Z) : result maps :=
  x_map ← zeros output_h output_w;
  y_map ← zeros output_h output_w;
  for_ (range output_h) (row_body h w output_w output_h) (x_map, y_map).

(** The formula of the specification (section 4.3), in the same exact
    arithmetic. *)
Definition spec_theta (output_height : Z) (y : Z) : Q :=
  (inject_Z y / inject_Z output_height - (1#2)) * pi.
Definition spec_phi (output_width : Z) (x : Z) : Q :=
  (inject_Z x / inject_Z output_width - (1#2)) * 2 * pi.
Definition spec_x_src (pano_width : nat) (output_width : Z) (x : Z) : Q :=
  (1#2) * inject_Z (Z.of_nat pano_width) * (spec_phi output_width x / pi + 1).
Definition spec_y_src (pano_height : nat) (output_height : Z) (y : Z) : Q :=
  (1#2) * inject_Z (Z.of_nat pano_height)
  * (spec_theta output_height y / (pi / 2) + 1).

(** The values the loop bodies compute at column [x] and row [y]. *)
Definition xs_at (w : nat) (output_w : Z) (x : nat) : Q :=
  (1#2) * inject_Z (Z.of_nat w)
  * (((inject_Z (Z.of_nat x) / inject_Z output_w - (1#2)) * 2 * pi) / pi + 1).
Definition ys_at (h : nat) (theta : Q) : Q :=
  (1#2) * inject_Z (Z.of_nat h) * (theta / (pi / 2) + 1).
Definition theta_at (output_h : Z) (y : nat) : Q :=
  (inject_Z (Z.of_nat y) / inject_Z output_h - (1#2)) * pi.


End Projector.

(** ** pathlib: suffixes and the order of paths *)

Module Pathlib.

(** [s.rfind('.')]: the index of the last dot, counted from the index
    [i] of the first character of [s]. *)
Fixpoint rfind_dot (s : string) (i : nat) : option nat :=
  match s with
  | EmptyString => None
  | String c s' =>
      match rfind_dot s' (S i) with
      | Some j => Some j
      | None => if Ascii.eqb c "." then Some i else None
      end
  end.

(** [s[i:]]. *)
Fixpoint drop_string (i : nat) (s : string) : string :=
  match i, s with
  | O, _ => s
  | S i', String _ s' => drop_string i' s'
  | S _, EmptyString => EmptyString
  end.

(** [PurePath.suffix] of a path whose final component is [name]: the
    part from the last dot on, when that dot is neither the first nor
    the last character of the name. *)
Definition suffix (name : string) : string :=
  match rfind_dot name 0 with
  | Some i =>
      if (0 <? i)%nat && (i <? String.length name - 1)%nat
      then drop_string i name else EmptyString
  | None => EmptyString
  end.

(** [p < q] for two entries of one directory: the order of their names,
    character by character (the POSIX flavour of pathlib). *)
Definition path_lt (p q : dirent) : bool := String.ltb (d_name p) (d_name q).

(** [sorted(l)]: a stable sort that only asks [<]. *)
Fixpoint insert_sorted (x : dirent) (l : list dirent) : list dirent :=
  match l with
  | [] => [x]
  | y :: l' => if path_lt y x then y :: insert_sorted x l' else x :: l
  end.
Definition sorted (l : list dirent) : list dirent := foldr insert_sorted [] l.

End Pathlib.

(** ** Code shared by the two programs *)

Module Common.
Import Pathlib.

(** [image_extensions], the set literal of both loaders. *)
Definition image_extensions : gset string :=
  {[ ".jpg"; ".jpeg"; ".png"; ".JPG"; ".JPEG"; ".PNG" ]}.

(** The filter of the list comprehension:
    [f.is_file() and f.suffix in image_extensions]. *)
Definition is_image_file (f : dirent) : bool :=
  d_is_file f && bool_decide (suffix (d_name f) ∈ image_extensions).

(** [sorted([f for f in folder.iterdir() if ...])]. *)
Definition image_files_of (entries : list dirent) : list dirent :=
  sorted (filter (fun f => is_image_file f = true) entries).

(** [cv2.Stitcher_create(cv2.Stitcher_<mode>)]: reading an attribute the
    module does not have raises. The stitcher is its mode. *)
Definition Stitcher_create (cv : cv2) (mode : StitchMode) : M StitchMode :=
  match mode with
  | SCANS =>
      if has_Stitcher_SCANS cv then ret SCANS
      else raise (AttributeError "module 'cv2' has no attribute 'Stitcher_SCANS'")
  | PANORAMA =>
      if has_Stitcher_PANORAMA cv then ret PANORAMA
      else raise (AttributeError "module 'cv2' has no attribute 'Stitcher_PANORAMA'")
  end.

(** [stitcher.stitch(images)]. *)
Definition stitcher_stitch (cv : cv2) (stitcher : StitchMode)
    (images : list image) : M (Z * image) :=
  _ ← emit (Stitch stitcher);
  ret (stitch cv stitcher images).

(** [cv2.remap(pano, x_map, y_map, interpolation=cv2.INTER_LINEAR,
    borderMode=cv2.BORDER_WRAP)]: the destination has the size of the
    maps, and [dst[y, x]] is the source sampled at
    [(x_map[y, x], y_map[y, x])]. *)
Definition remap (cv : cv2) (src : image) (map_x map_y : Numpy.ndarray2)
  : M image :=
  _ ← emit Remap;
  ret (zip_with (zip_with (sample cv src)) map_x map_y).

End Common.

(** ** [Python/app.py] *)

Module App.
Import Pathlib Common.

Inductive response : Type :=
| StreamingResponse (body : bytes) (media_type : string)
    (headers : list (string * string)).

Definition read_image (cv : cv2) (file : bytes) : M image :=
  _ ← emit (Imdecode file);
  match imdecode cv file with
  | None => raise (ValueError "Invalid image file")
  | Some img => ret img
  end.

(** The body of the loop over [image_files]. *)
Definition load_one (fs : os) (cv : cv2) (folder_path : string)
    (img_path : dirent) (images : list image) : M (list image) :=
  let p := path_str fs folder_path (d_name img_path) in
  _ ← emit (Imread p);
  match imread cv p with
  | Some img => ret (images ++ [img])
  | None => _ ← print ("Warning: Could not load " +:+ p); ret images
  end.

Definition load_images_from_folder (fs : os) (cv : cv2) (folder_path : string)
  : M (list image) :=
  if negb (path_exists fs folder_path)
  then raise (ValueError ("Folder " +:+ folder_path +:+ " does not exist"))
  else
    entries ← lift (iterdir fs folder_path);
    let image_files := image_files_of entries in
    if (length image_files <? 2)%nat
    then raise (ValueError ("Need at least 2 images, found "
                            +:+ str_int (Z.of_nat (length image_files))))
    else
      images ← for_each image_files (load_one fs cv folder_path) [];
      if (length images <? 2)%nat
      then raise (ValueError ("Successfully loaded only "
                              +:+ str_int (Z.of_nat (length images))
                              +:+ " images, need at least 2"))
      else ret images.

Definition stitch_images (cv : cv2) (images : list image) : M image :=
  stitcher ← Stitcher_create cv PANORAMA;
  '(status, pano) ← stitcher_stitch cv stitcher images;
  if negb (status =? Stitcher_OK)
  then raise (RuntimeError ("Stitching failed with status " +:+ str_int status))
  else ret pano.

Definition pano_to_equirectangular (cv : cv2) (pano : image)
    (output_w output_h : Z) : M image :=
  let '(h, w) := shape pano in
  '(x_map, y_map) ← lift (Projector.build_maps h w output_w output_h);
  remap cv pano x_map y_map.

(** The tail of both handlers: encode and build the response. *)
Definition jpeg_response (cv : cv2) (equirect : image) (filename : string)
  : M response :=
  _ ← emit Imencode;
  '(_, encoded) ← lift (imencode cv ".jpg" equirect 95);
  ret (StreamingResponse encoded "image/jpeg"
         [("Content-Disposition", "attachment; filename=" +:+ filename)]).

(** The [try] block of [stitch_360]. *)
Definition stitch_360_try (cv : cv2) (images : list bytes) : M response :=
  cv_images ← mapM (read_image cv) images;
  pano ← stitch_images cv cv_images;
  equirect ← pano_to_equirectangular cv pano 2048 1024;
  jpeg_response cv equirect "360.jpg".

(** [POST /stitch-360]. *)
Definition stitch_360 (cv : cv2) (images : list bytes) : M response :=
  if (length images <? 2)%nat
  then raise (HTTPException 400 "At least two images required")
  else
    try_ (stitch_360_try cv images)
         (fun e => raise (HTTPException 500 (str_exn e))).

(** The [try] block of [stitch_from_folder]. *)
Definition stitch_from_folder_try (fs : os) (cv : cv2) (folder_path : string)
    (save_output : bool) : M response :=
  cv_images ← load_images_from_folder fs cv folder_path;
  _ ← print ("Loaded " +:+ str_int (Z.of_nat (length cv_images))
             +:+ " images from " +:+ folder_path);
  pano ← stitch_images cv cv_images;
  equirect ← pano_to_equirectangular cv pano 2048 1024;
  _ ← (if save_output then
         let output_path := parent_str fs folder_path "stitched_output.jpg" in
         _ ← emit (Imwrite output_path);
         _ ← lift (imwrite cv output_path equirect);
         print ("Saved stitched image to " +:+ output_path)
       else ret tt);
  jpeg_response cv equirect "stitched_360.jpg".

(** [POST /stitch-from-folder]; [GET /stitch-from-folder] awaits it. *)
Definition stitch_from_folder (fs : os) (cv : cv2) (folder_path : string)
    (save_output : bool) : M response :=
  try_ (stitch_from_folder_try fs cv folder_path save_output)
       (fun e => raise (HTTPException 500 (str_exn e))).

Definition stitch_from_folder_get := stitch_from_folder.

(** What FastAPI sends for the outcome of a handler: the response as it
    is, an [HTTPException] as its status code with the JSON object
    [detail: <detail>], any other exception as a bare 500. *)
Inductive http_body : Type :=
| Stream (body : bytes) (media_type : string) (headers : list (string * string))
| Json (fields : list (string * string))
| PlainText (text : string).

Definition http_reply (r : result response) : Z * http_body :=
  match r with
  | Ok (StreamingResponse body media_type headers) =>
      (200, Stream body media_type headers)
  | Err (HTTPException status_code detail) =>
      (status_code, Json [("detail", detail)])
  | Err _ => (500, PlainText "Internal Server Error")
  end.

End App.

(** ** [Python/stitch_images.py] *)

Module Batch.
Import Pathlib Common.

(** A line feed, for the messages that start with one. *)
Definition nl : string := String (ascii_of_nat 10) EmptyString.

(** [f"{img.shape[1]}x{img.shape[0]}"]. *)
Definition str_size (img : image) : string :=
  str_int (Z.of_nat (snd (shape img))) +:+ "x"
  +:+ str_int (Z.of_nat (fst (shape img))).

(** The body of the loop over [image_files]. *)
Definition load_one (fs : os) (cv : cv2) (folder_path : string)
    (img_path : dirent) (images : list image) : M (list image) :=
  let p := path_str fs folder_path (d_name img_path) in
  _ ← print ("Loading " +:+ d_name img_path +:+ "...");
  _ ← emit (Imread p);
  match imread cv p with
  | Some img =>
      _ ← print ("  ✓ Loaded: " +:+ str_size img);
      ret (images ++ [img])
  | None =>
      _ ← print ("  ✗ Warning: Could not load " +:+ p);
      ret images
  end.

Definition load_images_from_folder (fs : os) (cv : cv2) (folder_path : string)
  : M (list image) :=
  if negb (path_exists fs folder_path)
  then raise (ValueError ("Folder " +:+ folder_path +:+ " does not exist"))
  else
    entries ← lift (iterdir fs folder_path);
    let image_files := image_files_of entries in
    if (length image_files <? 2)%nat
    then raise (ValueError ("Need at least 2 images, found "
                            +:+ str_int (Z.of_nat (length image_files))))
    else
      images ← for_each image_files (load_one fs cv folder_path) [];
      if (length images <? 2)%nat
      then raise (ValueError ("Successfully loaded only "
                              +:+ str_int (Z.of_nat (length images))
                              +:+ " images, need at least 2"))
      else ret images.

(** The dictionary [error_codes] with its default:
    [error_codes.get(status, f"Stitching failed with status code: ...")]. *)
Definition error_codes : gmap Z string :=
  {[ 1 := "Need more images or insufficient overlap";
     2 := "Homography estimation failed - images may not have enough matching features";
     3 := "Camera parameter adjustment failed" ]}.

Definition error_msg (status : Z) : string :=
  default ("Stitching failed with status code: " +:+ str_int status)
          (error_codes !! status).

Definition stitch_images (cv : cv2) (images : list image) : M image :=
  _ ← print (nl +:+ "Stitching " +:+ str_int (Z.of_nat (length images))
             +:+ " images...");
  stitcher ← try_
    (stitcher ← Stitcher_create cv SCANS;
     _ ← print "  Using SCANS mode...";
     ret stitcher)
    (fun _ =>
       stitcher ← Stitcher_create cv PANORAMA;
       _ ← print "  Using PANORAMA mode...";
       ret stitcher);
  '(status, pano) ← stitcher_stitch cv stitcher images;
  '(status, pano) ←
    (if negb (status =? Stitcher_OK) then
       '(status, pano) ←
         (if has_Stitcher_PANORAMA cv then
            _ ← print "  SCANS mode failed, trying PANORAMA mode...";
            stitcher ← Stitcher_create cv PANORAMA;
            stitcher_stitch cv stitcher images
          else ret (status, pano));
       if negb (status =? Stitcher_OK)
       then raise (RuntimeError (error_msg status))
       else ret (status, pano)
     else ret (status, pano));
  _ ← print ("✓ Stitching successful! Panorama size: " +:+ str_size pano);
  ret pano.

Definition pano_to_equirectangular (cv : cv2) (pano : image)
    (output_w output_h : Z) : M image :=
  _ ← print (nl +:+ "Converting to equirectangular (" +:+ str_int output_w
             +:+ "x" +:+ str_int output_h +:+ ")...");
  let '(h, w) := shape pano in
  '(x_map, y_map) ← lift (Projector.build_maps h w output_w output_h);
  equirect ← remap cv pano x_map y_map;
  _ ← print "✓ Conversion complete!";
  ret equirect.

(** The end of the [try] block of [main]: the two images are written. *)
Definition save_outputs (fs : os) (cv : cv2) (equirect pano : image) : M unit :=
  let output_path := path_str fs "Images" "stitched_output.jpg" in
  _ ← emit (Imwrite output_path);
  _ ← lift (imwrite cv output_path equirect);
  _ ← print (nl +:+ "✓ Saved stitched image to: " +:+ output_path);
  let pano_path := path_str fs "Images" "panorama.jpg" in
  _ ← emit (Imwrite pano_path);
  _ ← lift (imwrite cv pano_path pano);
  print ("✓ Saved panorama to: " +:+ pano_path).

(** The [try] block of [main]. *)
Definition main_try (fs : os) (cv : cv2) : M unit :=
  images ← load_images_from_folder fs cv "Images";
  pano ← stitch_images cv images;
  equirect ← pano_to_equirectangular cv pano 2048 1024;
  save_outputs fs cv equirect pano.

(** [main]: the exit status. [traceback.print_exc()] writes to the standard
    error stream, which the trace does not record. *)
Definition main (fs : os) (cv : cv2) : M Z :=
  returned ← try_
    (_ ← main_try fs cv; ret None)
    (fun e => _ ← print (nl +:+ "✗ Error: " +:+ str_exn e); ret (Some 1));
  match returned with
  | Some status => ret status
  | None => ret 0
  end.

End Batch.

(** ** The words of the specification, for comparison with the code *)

Module SpecWords.
Import Pathlib.

(** [s.lower()] on ASCII letters. *)
Definition lower_ascii (c : ascii) : ascii :=
  let n := nat_of_ascii c in
  if (65 <=? n)%nat && (n <=? 90)%nat then ascii_of_nat (n + 32) else c.

Fixpoint lower (s : string) : string :=
  match s with
  | EmptyString => EmptyString
  | String c s' => String (lower_ascii c) (lower s')
  end.

(** Section 4.1: an entry is listed when its extension matches the
    allow-set jpg, jpeg, png without regard to case. *)
Definition spec_selected (f : dirent) : bool :=
  d_is_file f
  && bool_decide (lower (suffix (d_name f)) ∈ [".jpg"; ".jpeg"; ".png"]).

(** The order of the specification: by file name. *)
Definition name_le (p q : dirent) : Prop := String.le (d_name p) (d_name q).

(** The paths read by [cv2.imread] in a trace, in order. *)
Definition imreads (t : list event) : list string :=
  omap (fun ev => match ev with Imread p => Some p | _ => None end) t.

(** The images of [files] that [cv2.imread] decodes, in order. *)
Definition decoded (fs : os) (cv : cv2) (folder_path : string)
    (files : list dirent) : list image :=
  omap (fun f => imread cv (path_str fs folder_path (d_name f))) files.

(** The modes in which the engine was run in a trace, in order. *)
Definition stitch_attempts (t : list event) : list StitchMode :=
  omap (fun ev => match ev with Stitch mode => Some mode | _ => None end) t.

(** Section 4.2, steps 1 and 2, as the sequence of engine runs: SCANS
    first; PANORAMA once more when SCANS is unavailable or fails. *)
Definition spec_attempts (cv : cv2) (images : list image) : list StitchMode :=
  if has_Stitcher_SCANS cv then
    if fst (stitch cv SCANS images) =? Stitcher_OK then [SCANS]
    else [SCANS; PANORAMA]
  else [PANORAMA].

(** Section 4.2, step 3, and section 7: the kinds of a failed stitch. *)
Inductive StitchErrorKind : Type :=
| InsufficientOverlap
| HomographyEstimationFailed
| CameraParameterAdjustmentFailed
| UnknownEngineFailure (code : Z).

Definition classify (status : Z) : StitchErrorKind :=
  if status =? 1 then InsufficientOverlap
  else if status =? 2 then HomographyEstimationFailed
  else if status =? 3 then CameraParameterAdjustmentFailed
  else UnknownEngineFailure status.

(** The message with which the batch tool reports each kind. *)
Definition kind_message (k : StitchErrorKind) : string :=
  match k with
  | InsufficientOverlap => "Need more images or insufficient overlap"
  | HomographyEstimationFailed =>
      "Homography estimation failed - images may not have enough matching features"
  | CameraParameterAdjustmentFailed => "Camera parameter adjustment failed"
  | UnknownEngineFailure code =>
      "Stitching failed with status code: " +:+ str_int code
  end.

End SpecWords.

(** ** Observations on traces and names *)

Module Observe.
Import Common SpecWords.

(** The paths handed to [cv2.imwrite] in a trace, in order. *)
Definition imwrites (t : list event) : list string :=
  omap (fun ev => match ev with Imwrite p => Some p | _ => None end) t.

(** The string has no dot. *)
Fixpoint no_dot (s : string) : bool :=
  match s with
  | EmptyString => true
  | String c s' => negb (Ascii.eqb c ".") && no_dot s'
  end.

(** The events a loader may produce: reads and messages. *)
Definition is_read_or_print (ev : event) : Prop :=
  match ev with
  | Imread _ | Print _ => True
  | _ => False
  end.

(** The events a stitch function may produce: engine runs and messages. *)
Definition is_stitch_or_print (ev : event) : Prop :=
  match ev with
  | Stitch _ | Print _ => True
  | _ => False
  end.

(** The result of each loader, case by case. *)
Definition load_outcome (fs : os) (cv : cv2) (folder : string)
  : result (list image) :=
  if path_exists fs folder then
    match iterdir fs folder with
    | Err e => Err e
    | Ok entries =>
        let files := image_files_of entries in
        let images := decoded fs cv folder files in
        if (length files <? 2)%nat
        then Err (ValueError ("Need at least 2 images, found "
                              +:+ str_int (Z.of_nat (length files))))
        else if (length images <? 2)%nat
        then Err (ValueError ("Successfully loaded only "
                              +:+ str_int (Z.of_nat (length images))
                              +:+ " images, need at least 2"))
        else Ok images
    end
  else Err (ValueError ("Folder " +:+ folder +:+ " does not exist")).

End Observe.

(** ** Concrete environments, for running the definitions *)

Module Fixtures.

Definition black : pixel := (Byte.x00, Byte.x00, Byte.x00).

(** A panorama of 2 rows and 3 columns. *)
Definition pano_2x3 : image := replicate 2 (replicate 3 black).

(** An OpenCV build with both modes, whose engine stitches anything, whose
    decoder rejects the empty byte string and the path [bad.jpg]. *)
Definition cv_ok : cv2 := {|
  has_Stitcher_SCANS := true;
  has_Stitcher_PANORAMA := true;
  imdecode := fun data => match data with [] => None | _ => Some pano_2x3 end;
  imread := fun path => if String.eqb path "bad.jpg" then None else Some pano_2x3;
  stitch := fun _ _ => (0, pano_2x3);
  sample := fun _ _ _ => black;
  imencode := fun _ _ _ => Ok (true, [Byte.xff; Byte.xd8]);
  imwrite := fun _ _ => Ok true
|}.

(** The same build with an engine that returns [status] in both modes. *)
Definition cv_failing (status : Z) : cv2 := {|
  has_Stitcher_SCANS := true;
  has_Stitcher_PANORAMA := true;
  imdecode := imdecode cv_ok;
  imread := imread cv_ok;
  stitch := fun _ _ => (status, []);
  sample := sample cv_ok;
  imencode := imencode cv_ok;
  imwrite := imwrite cv_ok
|}.

(** An engine that succeeds in SCANS mode only. *)
Definition cv_scans_only_succeeds : cv2 := {|
  has_Stitcher_SCANS := true;
  has_Stitcher_PANORAMA := true;
  imdecode := imdecode cv_ok;
  imread := imread cv_ok;
  stitch := fun mode _ =>
    match mode with SCANS => (0, pano_2x3) | PANORAMA => (1, []) end;
  sample := sample cv_ok;
  imencode := imencode cv_ok;
  imwrite := imwrite cv_ok
|}.

(** A build without SCANS whose engine returns [status]. *)
Definition cv_no_scans (status : Z) : cv2 := {|
  has_Stitcher_SCANS := false;
  has_Stitcher_PANORAMA := true;
  imdecode := imdecode cv_ok;
  imread := imread cv_ok;
  stitch := fun _ _ => (status, []);
  sample := sample cv_ok;
  imencode := imencode cv_ok;
  imwrite := imwrite cv_ok
|}.

(** A file system with one directory, [Images], listing [entries]; paths
    are joined without a separator. *)
Definition fs_with (entries : list dirent) : os := {|
  path_exists := fun p => String.eqb p "Images";
  iterdir := fun p =>
    if String.eqb p "Images" then Ok entries
    else Err (OSError "No such file or directory");
  path_str := fun _ name => name;
  parent_str := fun _ name => name
|}.

Definition file (name : string) : dirent :=
  {| d_name := name; d_is_file := true |}.

(** A directory with a mixed-case extension among its files. *)
Definition mixed_entries : list dirent :=
  [file "c.png"; file "b.Jpg"; file "a.jpg"].


(** A build with neither mode. *)
Definition cv_no_modes : cv2 := {|
  has_Stitcher_SCANS := false;
  has_Stitcher_PANORAMA := false;
  imdecode := imdecode cv_ok;
  imread := imread cv_ok;
  stitch := stitch cv_ok;
  sample := sample cv_ok;
  imencode := imencode cv_ok;
  imwrite := imwrite cv_ok
|}.

(** A build with SCANS only, whose engine returns [status]. *)
Definition cv_scans_only (status : Z) : cv2 := {|
  has_Stitcher_SCANS := true;
  has_Stitcher_PANORAMA := false;
  imdecode := imdecode cv_ok;
  imread := imread cv_ok;
  stitch := fun _ _ => (status, []);
  sample := sample cv_ok;
  imencode := imencode cv_ok;
  imwrite := imwrite cv_ok
|}.


End Fixtures.

(** * Properties *)

(** ** The exact arithmetic of the two formulas *)

Module Arith.
Import Numpy Projector.
Local Open Scope Q_scope.

Lemma pi_pos : 0 < pi.
Proof. reflexivity. Qed.

Lemma pi_nonzero : ~ pi == 0.
Proof. intros E. pose proof pi_pos as P. rewrite E in P. inversion P. Qed.

Lemma inject_Z_nonzero (n : Z) : n <> 0%Z -> ~ inject_Z n == 0.
Proof.
  intros Hn E. apply Hn. by apply (inject_Z_injective n 0%Z).
Qed.

(** [pi] cancels: the source column is [pano_width * x / output_width]. *)
Lemma spec_x_src_linear (pano_width : nat) (output_width x : Z) :
  output_width <> 0%Z ->
  spec_x_src pano_width output_width x
  == inject_Z (Z.of_nat pano_width) * inject_Z x / inject_Z output_width.
Proof.
  intros HW. unfold spec_x_src, spec_phi.
  pose proof pi_nonzero as Hpi. pose proof (inject_Z_nonzero _ HW) as HW'.
  generalize dependent pi. intros p Hp. field. by split.
Qed.

(** The source row is [pano_height * y / output_height]. *)
Lemma spec_y_src_linear (pano_height : nat) (output_height y : Z) :
  output_height <> 0%Z ->
  spec_y_src pano_height output_height y
  == inject_Z (Z.of_nat pano_height) * inject_Z y / inject_Z output_height.
Proof.
  intros HH. unfold spec_y_src, spec_theta.
  pose proof pi_nonzero as Hpi. pose proof (inject_Z_nonzero _ HH) as HH'.
  generalize dependent pi. intros p Hp. field. by split.
Qed.

(** [a * x / b] does not decrease with [x] when [0 <= a] and [0 < b]. *)
Lemma scale_mono (a b : Z) (x1 x2 : Z) :
  (0 <= a)%Z -> (0 < b)%Z -> (x1 <= x2)%Z ->
  inject_Z a * inject_Z x1 / inject_Z b <= inject_Z a * inject_Z x2 / inject_Z b.
Proof.
  intros Ha Hb Hx. unfold Qdiv.
  apply Qmult_le_compat_r.
  - rewrite <- !inject_Z_mult. rewrite <- Zle_Qle. by apply Z.mul_le_mono_nonneg_l.
  - apply Qinv_le_0_compat. change 0 with (inject_Z 0). rewrite <- Zle_Qle. lia.
Qed.


End Arith.

(** ** The loops that fill the maps *)

Module Loops.
Import Numpy Projector.

Lemma norm_index_in (n i : nat) :
  (i < n)%nat -> norm_index n (Z.of_nat i) = Ok i.
Proof.
  intros Hi. unfold norm_index.
  replace (0 <=? Z.of_nat i) with true by (symmetry; apply Z.leb_le; lia).
  replace (Z.of_nat i <? Z.of_nat n) with true by (symmetry; apply Z.ltb_lt; lia).
  simpl. by rewrite Nat2Z.id.
Qed.

Lemma has_shape_lookup (a : ndarray2) rows cols i :
  has_shape a rows cols -> (i < rows)%nat ->
  exists row, a !! i = Some row /\ length row = cols.
Proof.
  intros [Hlen Hall] Hi.
  destruct (lookup_lt_is_Some_2 a i) as [row Hrow]; [lia|].
  exists row. split; [done|].
  by apply (Forall_lookup_1 _ _ _ _ Hall Hrow).
Qed.

Lemma zeros_shape (rows cols : nat) :
  has_shape (replicate rows (replicate cols 0%Q)) rows cols.
Proof.
  split; [by rewrite length_replicate|].
  apply Forall_replicate. by rewrite length_replicate.
Qed.

(** An in-range assignment succeeds, keeps the shape and changes one cell. *)
Lemma setitem_spec (a : ndarray2) rows cols (i j : nat) (v : Q) :
  has_shape a rows cols -> (i < rows)%nat -> (j < cols)%nat ->
  exists a',
    setitem a (Z.of_nat i) (Z.of_nat j) v = Ok a'
    /\ has_shape a' rows cols
    /\ forall p q,
         get2 a' p q = if decide (p = i /\ q = j) then Some v else get2 a p q.
Proof.
  intros Hs Hi Hj.
  destruct (has_shape_lookup _ _ _ _ Hs Hi) as (row & Hrow & Hlen).
  destruct Hs as [Hrows Hall].
  exists (<[i := <[j := v]> row]> a). split; [|split; [split|]].
  - unfold setitem. rewrite norm_index_in by lia. simpl.
    rewrite Hrow. rewrite norm_index_in by lia. done.
  - by rewrite length_insert.
  - apply Forall_insert; [done|]. by rewrite length_insert.
  - intros p q. unfold get2. case_decide as Hpq.
    + destruct Hpq as [-> ->].
      rewrite list_lookup_insert_eq by lia. simpl.
      by rewrite list_lookup_insert_eq by lia.
    + destruct (decide (p = i)) as [->|Hp].
      * rewrite list_lookup_insert_eq by lia. rewrite Hrow. simpl.
        rewrite list_lookup_insert_ne; [done|]. intros ->. by apply Hpq.
      * by rewrite list_lookup_insert_ne.
Qed.

Section Inner.
Variables (h w : nat) (output_w : Z) (y : nat) (theta : Q).
Variables (rows : nat).
Hypothesis y_in : (y < rows)%nat.

Let cols := Z.to_nat output_w.

(** The inner loop over the columns [j, j + n) of row [y]. *)
Lemma pixel_loop (n : nat) : forall (j : nat) (xm ym : ndarray2),
  has_shape xm rows cols -> has_shape ym rows cols -> (j + n <= cols)%nat ->
  exists xm' ym',
    for_ (Z.of_nat <$> seq j n)
         (pixel_body h w output_w (Z.of_nat y) theta) (xm, ym)
    = Ok (xm', ym')
    /\ has_shape xm' rows cols /\ has_shape ym' rows cols
    /\ (forall p q, get2 xm' p q
          = if decide (p = y /\ (j <= q < j + n)%nat)
            then Some (xs_at w output_w q) else get2 xm p q)
    /\ (forall p q, get2 ym' p q
          = if decide (p = y /\ (j <= q < j + n)%nat)
            then Some (ys_at h theta) else get2 ym p q).
Proof using y_in.
  induction n as [|n IH]; intros j xm ym Hx Hy Hj.
  - exists xm, ym. do 3 (split; [done|]).
    split; intros p q; (case_decide; [lia|done]).
  - assert (HW : (0 < output_w)%Z) by (subst cols; lia).
    destruct (setitem_spec xm rows cols y j (xs_at w output_w j) Hx y_in)
      as (xm1 & Ex & Hx1 & Gx); [lia|].
    destruct (setitem_spec ym rows cols y j (ys_at h theta) Hy y_in)
      as (ym1 & Ey & Hy1 & Gy); [lia|].
    destruct (IH (S j) xm1 ym1 Hx1 Hy1) as (xm' & ym' & E & Hx' & Hy' & Gx' & Gy');
      [lia|].
    exists xm', ym'. split; [|do 2 (split; [done|]); split].
    + assert (Hstep : pixel_body h w output_w (Z.of_nat y) theta
                        (Z.of_nat j) (xm, ym) = Ok (xm1, ym1)).
      { unfold pixel_body, truediv.
        replace (output_w =? 0)%Z with false by (symmetry; apply Z.eqb_neq; lia).
        simpl. fold (xs_at w output_w j). fold (ys_at h theta).
      rewrite Ex. simpl. by rewrite Ey. }
      cbn [seq fmap list_fmap for_]. rewrite Hstep. exact E.
    + intros p q. rewrite Gx', Gx. repeat case_decide; try done; try lia.
      destruct_and!. by subst.
    + intros p q. rewrite Gy', Gy. repeat case_decide; try done; lia.
Qed.
End Inner.

Section Outer.
Variables (h w : nat) (output_w output_h : Z).

Let cols := Z.to_nat output_w.
Let rows := Z.to_nat output_h.

(** One turn of the outer loop fills row [y]. *)
Lemma row_body_spec (y : nat) (xm ym : ndarray2) :
  has_shape xm rows cols -> has_shape ym rows cols -> (y < rows)%nat ->
  exists xm' ym',
    row_body h w output_w output_h (Z.of_nat y) (xm, ym) = Ok (xm', ym')
    /\ has_shape xm' rows cols /\ has_shape ym' rows cols
    /\ (forall p q, get2 xm' p q
          = if decide (p = y /\ (q < cols)%nat)
            then Some (xs_at w output_w q) else get2 xm p q)
    /\ (forall p q, get2 ym' p q
          = if decide (p = y /\ (q < cols)%nat)
            then Some (ys_at h (theta_at output_h y)) else get2 ym p q).
Proof.
  intros Hx Hy Hlt.
  destruct (pixel_loop h w output_w y (theta_at output_h y) rows Hlt cols 0 xm ym Hx Hy)
    as (xm' & ym' & E & Hx' & Hy' & Gx & Gy); [subst cols; lia|].
  exists xm', ym'. split; [|do 2 (split; [done|]); split].
  - unfold row_body, truediv.
    replace (output_h =? 0)%Z with false
      by (symmetry; apply Z.eqb_neq; subst rows; lia).
    exact E.
  - intros p q. rewrite Gx. repeat case_decide; try done; lia.
  - intros p q. rewrite Gy. repeat case_decide; try done; lia.
Qed.

(** The outer loop over the rows [i, i + n). *)
Lemma row_loop (n : nat) : forall (i : nat) (xm ym : ndarray2),
  has_shape xm rows cols -> has_shape ym rows cols -> (i + n <= rows)%nat ->
  exists xm' ym',
    for_ (Z.of_nat <$> seq i n) (row_body h w output_w output_h) (xm, ym)
    = Ok (xm', ym')
    /\ has_shape xm' rows cols /\ has_shape ym' rows cols
    /\ (forall p q, get2 xm' p q
          = if decide ((i <= p < i + n)%nat /\ (q < cols)%nat)
            then Some (xs_at w output_w q) else get2 xm p q)
    /\ (forall p q, get2 ym' p q
          = if decide ((i <= p < i + n)%nat /\ (q < cols)%nat)
            then Some (ys_at h (theta_at output_h p)) else get2 ym p q).
Proof.
  induction n as [|n IH]; intros i xm ym Hx Hy Hi.
  - exists xm, ym. do 3 (split; [done|]).
    split; intros p q; (case_decide; [lia|done]).
  - destruct (row_body_spec i xm ym Hx Hy) as (xm1 & ym1 & E1 & Hx1 & Hy1 & Gx1 & Gy1);
      [lia|].
    destruct (IH (S i) xm1 ym1 Hx1 Hy1) as (xm' & ym' & E & Hx' & Hy' & Gx' & Gy');
      [lia|].
    exists xm', ym'. split; [|do 2 (split; [done|]); split].
    + cbn [seq fmap list_fmap for_]. rewrite E1. exact E.
    + intros p q. rewrite Gx', Gx1. repeat case_decide; try done; lia.
    + intros p q. rewrite Gy', Gy1. repeat case_decide; try done; try lia.
      destruct_and!. by subst.
Qed.

(** The maps handed to [cv2.remap]: both have [output_h] rows of
    [output_w] entries, and every entry is the formula at its index. *)
Lemma build_maps_spec :
  (0 <= output_w)%Z -> (0 <= output_h)%Z ->
  exists x_map y_map,
    build_maps h w output_w output_h = Ok (x_map, y_map)
    /\ has_shape x_map rows cols /\ has_shape y_map rows cols
    /\ forall y x, (y < rows)%nat -> (x < cols)%nat ->
         get2 x_map y x = Some (spec_x_src w output_w (Z.of_nat x))
         /\ get2 y_map y x = Some (spec_y_src h output_h (Z.of_nat y)).
Proof.
  intros HW HH.
  destruct (row_loop rows 0 _ _ (zeros_shape rows cols) (zeros_shape rows cols))
    as (xm & ym & E & Hx & Hy & Gx & Gy); [lia|].
  exists xm, ym. split; [|do 2 (split; [done|])].
  - unfold build_maps, zeros.
    replace (output_h <? 0)%Z with false by (symmetry; apply Z.ltb_ge; lia).
    replace (output_w <? 0)%Z with false by (symmetry; apply Z.ltb_ge; lia).
    exact E.
  - intros y x Hy' Hx'. rewrite Gx, Gy.
    rewrite !decide_True by lia. done.
Qed.
End Outer.

End Loops.

(** ** The projector *)

Module ProjectorFacts.
Import Numpy Projector Common Arith Loops.


(** What the service's projector does once the maps are built. *)
Lemma app_project_run (cv : cv2) (pano : image) (output_w output_h : Z)
    (x_map y_map : ndarray2) :
  build_maps (fst (shape pano)) (snd (shape pano)) output_w output_h
  = Ok (x_map, y_map) ->
  App.pano_to_equirectangular cv pano output_w output_h
  = mkM [Remap] (Ok (zip_with (zip_with (sample cv pano)) x_map y_map)).
Proof.
  intros E. unfold App.pano_to_equirectangular.
  destruct (shape pano) as [h w]. simpl in E.
  unfold mbind, M_bind, bind, lift. simpl. rewrite E. reflexivity.
Qed.


(** The destination of [remap] has the shape of the maps. *)
Lemma remap_shape {A} (f : Q -> Q -> A) (x_map y_map : ndarray2) rows cols :
  has_shape x_map rows cols -> has_shape y_map rows cols ->
  length (zip_with (zip_with f) x_map y_map) = rows
  /\ Forall (fun row => length row = cols) (zip_with (zip_with f) x_map y_map).
Proof.
  intros [Lx Fx] [Ly Fy]. split.
  - rewrite length_zip_with. lia.
  - apply Forall_lookup. intros i row Hrow.
    apply lookup_zip_with_Some in Hrow as (rx & ry & -> & Hrx & Hry).
    rewrite length_zip_with.
    rewrite (Forall_lookup_1 _ _ _ _ Fx Hrx), (Forall_lookup_1 _ _ _ _ Fy Hry).
    lia.
Qed.


End ProjectorFacts.

(** ** The claims about the coordinate map *)

Module ProjectorClaims.
Import Numpy Projector Common Arith Loops ProjectorFacts Fixtures.





(** C9: for every panorama and valid configuration, along a fixed output
    row the entries of [x_map] do not decrease with the column, and along a
    fixed output column the entries of [y_map] do not decrease with the
    row. *)
Theorem source_coordinates_monotone (pano : image) (output_w output_h : Z) :
  (0 < output_w)%Z -> (0 < output_h)%Z ->
  exists x_map y_map,
    build_maps (fst (shape pano)) (snd (shape pano)) output_w output_h
    = Ok (x_map, y_map)
    /\ (forall y x1 x2 : Z,
          (0 <= y < output_h)%Z -> (0 <= x1)%Z -> (x1 <= x2)%Z -> (x2 < output_w)%Z ->
          exists a b,
            get2 x_map (Z.to_nat y) (Z.to_nat x1) = Some a
            /\ get2 x_map (Z.to_nat y) (Z.to_nat x2) = Some b
            /\ (a <= b)%Q)
    /\ (forall x y1 y2 : Z,
          (0 <= x < output_w)%Z -> (0 <= y1)%Z -> (y1 <= y2)%Z -> (y2 < output_h)%Z ->
          exists a b,
            get2 y_map (Z.to_nat y1) (Z.to_nat x) = Some a
            /\ get2 y_map (Z.to_nat y2) (Z.to_nat x) = Some b
            /\ (a <= b)%Q).
Proof.
  intros HW HH.
  destruct (build_maps_spec (fst (shape pano)) (snd (shape pano)) output_w output_h)
    as (xm & ym & E & _ & _ & G); [lia..|].
  exists xm, ym. split; [done|]. split.
  - intros y x1 x2 Hy H0 H12 H2.
    destruct (G (Z.to_nat y) (Z.to_nat x1)) as [G1 _]; [lia..|].
    destruct (G (Z.to_nat y) (Z.to_nat x2)) as [G2 _]; [lia..|].
    rewrite Z2Nat.id in G1, G2 by lia.
    eexists _, _. do 2 (split; [eassumption|]).
    rewrite !spec_x_src_linear by lia. apply scale_mono; lia.
  - intros x y1 y2 Hx H0 H12 H2.
    destruct (G (Z.to_nat y1) (Z.to_nat x)) as [_ G1]; [lia..|].
    destruct (G (Z.to_nat y2) (Z.to_nat x)) as [_ G2]; [lia..|].
    rewrite Z2Nat.id in G1, G2 by lia.
    eexists _, _. do 2 (split; [eassumption|]).
    rewrite !spec_y_src_linear by lia. apply scale_mono; lia.
Qed.

Lemma source_coordinates_monotone_witness :
  exists x_map y_map,
    build_maps (fst (shape pano_2x3)) (snd (shape pano_2x3)) 4 2
    = Ok (x_map, y_map)
    /\ (forall y x1 x2 : Z,
          (0 <= y < 2)%Z -> (0 <= x1)%Z -> (x1 <= x2)%Z -> (x2 < 4)%Z ->
          exists a b,
            get2 x_map (Z.to_nat y) (Z.to_nat x1) = Some a
            /\ get2 x_map (Z.to_nat y) (Z.to_nat x2) = Some b
            /\ (a <= b)%Q)
    /\ (forall x y1 y2 : Z,
          (0 <= x < 4)%Z -> (0 <= y1)%Z -> (y1 <= y2)%Z -> (y2 < 2)%Z ->
          exists a b,
            get2 y_map (Z.to_nat y1) (Z.to_nat x) = Some a
            /\ get2 y_map (Z.to_nat y2) (Z.to_nat x) = Some b
            /\ (a <= b)%Q).
Proof. apply (source_coordinates_monotone pano_2x3 4 2); lia. Defined.

(** C10: the map is separable. For every panorama and valid configuration
    every entry of the maps is defined, the entry of [x_map] at column [x]
    is the same in every row, and the entry of [y_map] at row [y] is the
    same in every column. *)
Theorem coordinate_map_separable (pano : image) (output_w output_h : Z) :
  (0 < output_w)%Z -> (0 < output_h)%Z ->
  exists x_map y_map,
    build_maps (fst (shape pano)) (snd (shape pano)) output_w output_h
    = Ok (x_map, y_map)
    /\ (forall x y1 y2 : Z,
          (0 <= x < output_w)%Z -> (0 <= y1 < output_h)%Z -> (0 <= y2 < output_h)%Z ->
          is_Some (get2 x_map (Z.to_nat y1) (Z.to_nat x))
          /\ get2 x_map (Z.to_nat y1) (Z.to_nat x)
             = get2 x_map (Z.to_nat y2) (Z.to_nat x))
    /\ (forall y x1 x2 : Z,
          (0 <= y < output_h)%Z -> (0 <= x1 < output_w)%Z -> (0 <= x2 < output_w)%Z ->
          is_Some (get2 y_map (Z.to_nat y) (Z.to_nat x1))
          /\ get2 y_map (Z.to_nat y) (Z.to_nat x1)
             = get2 y_map (Z.to_nat y) (Z.to_nat x2)).
Proof.
  intros HW HH.
  destruct (build_maps_spec (fst (shape pano)) (snd (shape pano)) output_w output_h)
    as (xm & ym & E & _ & _ & G); [lia..|].
  exists xm, ym. split; [done|]. split.
  - intros x y1 y2 Hx H1 H2.
    destruct (G (Z.to_nat y1) (Z.to_nat x)) as [G1 _]; [lia..|].
    destruct (G (Z.to_nat y2) (Z.to_nat x)) as [G2 _]; [lia..|].
    rewrite G1, G2. eauto.
  - intros y x1 x2 Hy H1 H2.
    destruct (G (Z.to_nat y) (Z.to_nat x1)) as [_ G1]; [lia..|].
    destruct (G (Z.to_nat y) (Z.to_nat x2)) as [_ G2]; [lia..|].
    rewrite G1, G2. eauto.
Qed.

Lemma coordinate_map_separable_witness :
  exists x_map y_map,
    build_maps (fst (shape pano_2x3)) (snd (shape pano_2x3)) 4 2
    = Ok (x_map, y_map)
    /\ (forall x y1 y2 : Z,
          (0 <= x < 4)%Z -> (0 <= y1 < 2)%Z -> (0 <= y2 < 2)%Z ->
          is_Some (get2 x_map (Z.to_nat y1) (Z.to_nat x))
          /\ get2 x_map (Z.to_nat y1) (Z.to_nat x)
             = get2 x_map (Z.to_nat y2) (Z.to_nat x))
    /\ (forall y x1 x2 : Z,
          (0 <= y < 2)%Z -> (0 <= x1 < 4)%Z -> (0 <= x2 < 4)%Z ->
          is_Some (get2 y_map (Z.to_nat y) (Z.to_nat x1))
          /\ get2 y_map (Z.to_nat y) (Z.to_nat x1)
             = get2 y_map (Z.to_nat y) (Z.to_nat x2)).
Proof. apply (coordinate_map_separable pano_2x3 4 2); lia. Defined.




End ProjectorClaims.

(** ** Running computations *)

Module Run.

Lemma outcome_bind {A B} (m : M A) (k : A -> M B) :
  outcome (bind m k)
  = match outcome m with Ok a => outcome (k a) | Err e => Err e end.
Proof. unfold bind. by destruct (outcome m). Qed.

Lemma trace_bind {A B} (m : M A) (k : A -> M B) :
  trace (bind m k)
  = match outcome m with Ok a => trace m ++ trace (k a) | Err _ => trace m end.
Proof. unfold bind. by destruct (outcome m). Qed.

(** The events of the first part of a sequence are events of the whole. *)
Lemma trace_bind_l {A B} (m : M A) (k : A -> M B) (ev : event) :
  ev ∈ trace m -> ev ∈ trace (bind m k).
Proof.
  rewrite trace_bind. destruct (outcome m); [|done].
  intros. apply elem_of_app. by left.
Qed.

Lemma trace_bind_r {A B} (m : M A) (k : A -> M B) (a : A) (ev : event) :
  outcome m = Ok a -> ev ∈ trace (k a) -> ev ∈ trace (bind m k).
Proof.
  rewrite trace_bind. intros ->. intros. apply elem_of_app. by right.
Qed.

(** A failed first part is the whole run: nothing after it happens. *)
Lemma bind_err {A B} (m : M A) (k : A -> M B) (e : exn) :
  outcome m = Err e -> bind m k = mkM (trace m) (Err e).
Proof. unfold bind. by intros ->. Qed.

Lemma bind_ok {A B} (m : M A) (k : A -> M B) (a : A) :
  outcome m = Ok a -> bind m k = mkM (trace m ++ trace (k a)) (outcome (k a)).
Proof. unfold bind. by intros ->. Qed.

(** A step without events or error is transparent. *)
Lemma bind_pure {A B} (a : A) (k : A -> M B) : bind (mkM [] (Ok a)) k = k a.
Proof. unfold bind. simpl. by destruct (k a). Qed.

End Run.

(** ** The loader: the filter and the sort *)

Module SortFacts.
Import Pathlib Common SpecWords.

Lemma path_lt_le (p q : dirent) : path_lt p q = true -> name_le p q.
Proof.
  unfold path_lt, name_le, String.le, String.ltb, String.leb.
  by destruct (String.compare (d_name p) (d_name q)).
Qed.

Lemma path_not_lt_le (p q : dirent) : path_lt p q = false -> name_le q p.
Proof.
  unfold path_lt, name_le, String.le, String.ltb, String.leb.
  rewrite (String.compare_antisym (d_name q) (d_name p)).
  by destruct (String.compare (d_name p) (d_name q)).
Qed.

Lemma insert_sorted_perm (x : dirent) (l : list dirent) :
  insert_sorted x l ≡ₚ x :: l.
Proof.
  induction l as [|y l IH]; simpl; [done|].
  destruct (path_lt y x); [|done].
  rewrite IH. apply Permutation_swap.
Qed.

Lemma sorted_perm (l : list dirent) : sorted l ≡ₚ l.
Proof.
  induction l as [|x l IH]; simpl; [done|].
  by rewrite insert_sorted_perm, IH.
Qed.

Lemma insert_sorted_HdRel (a x : dirent) (l : list dirent) :
  name_le a x -> HdRel name_le a l -> HdRel name_le a (insert_sorted x l).
Proof.
  intros Hax Hal. destruct l as [|y l]; simpl; [by constructor|].
  inversion_clear Hal. destruct (path_lt y x); by constructor.
Qed.

Lemma insert_sorted_Sorted (x : dirent) (l : list dirent) :
  Sorted name_le l -> Sorted name_le (insert_sorted x l).
Proof.
  induction 1 as [|y l Hs IH Hhd]; simpl; [by repeat constructor|].
  destruct (path_lt y x) eqn:E.
  - constructor; [done|]. apply insert_sorted_HdRel; [|done]. by apply path_lt_le.
  - constructor; [by constructor|]. constructor. by apply path_not_lt_le.
Qed.

(** [sorted] returns its argument in the order of the file names. *)
Lemma sorted_Sorted (l : list dirent) : Sorted name_le (sorted l).
Proof.
  induction l as [|x l IH]; simpl; [constructor|].
  by apply insert_sorted_Sorted.
Qed.

#[global] Instance name_le_trans : Transitive name_le.
Proof. intros p q r. unfold name_le. apply transitivity. Qed.

(** The entries the loader keeps. *)
Lemma elem_of_image_files_of (entries : list dirent) (f : dirent) :
  f ∈ image_files_of entries
  <-> f ∈ entries /\ d_is_file f = true
      /\ suffix (d_name f) ∈ [".jpg"; ".jpeg"; ".png"; ".JPG"; ".JPEG"; ".PNG"].
Proof.
  unfold image_files_of. rewrite sorted_perm, list_elem_of_filter.
  unfold is_image_file, image_extensions.
  rewrite andb_true_iff, bool_decide_eq_true.
  rewrite !elem_of_union, !elem_of_singleton, !elem_of_cons, elem_of_nil. tauto.
Qed.

(** Every kept entry matches the allow-set without regard to case. *)
Lemma is_image_file_spec_selected (f : dirent) :
  is_image_file f = true -> spec_selected f = true.
Proof.
  unfold is_image_file, spec_selected, image_extensions.
  rewrite andb_true_iff, bool_decide_eq_true. intros [-> Hs]. simpl.
  rewrite !elem_of_union, !elem_of_singleton in Hs.
  destruct Hs as [[[[[-> | ->] | ->] | ->] | ->] | ->]; by vm_compute.
Qed.

End SortFacts.

(** ** The loader: the loop over the files *)

Module LoaderFacts.
Import Pathlib Common SpecWords Run.

(** One turn of the service's loop. *)
Lemma app_load_one_run (fs : os) (cv : cv2) (folder : string) (f : dirent)
    (acc : list image) :
  App.load_one fs cv folder f acc
  = let p := path_str fs folder (d_name f) in
    mkM (Imread p :: match imread cv p with
                     | Some _ => []
                     | None => [Print ("Warning: Could not load " +:+ p)]
                     end)
        (Ok (acc ++ option_list (imread cv p))).
Proof.
  unfold App.load_one. simpl. destruct (imread cv _); simpl.
  - reflexivity.
  - by rewrite app_nil_r.
Qed.

(** One turn of the batch tool's loop. *)
Lemma batch_load_one_run (fs : os) (cv : cv2) (folder : string) (f : dirent)
    (acc : list image) :
  Batch.load_one fs cv folder f acc
  = let p := path_str fs folder (d_name f) in
    mkM (Print ("Loading " +:+ d_name f +:+ "...") :: Imread p
         :: match imread cv p with
            | Some img => [Print ("  ✓ Loaded: " +:+ Batch.str_size img)]
            | None => [Print ("  ✗ Warning: Could not load " +:+ p)]
            end)
        (Ok (acc ++ option_list (imread cv p))).
Proof.
  unfold Batch.load_one. simpl. destruct (imread cv _); simpl.
  - reflexivity.
  - by rewrite app_nil_r.
Qed.

Lemma imreads_app (t1 t2 : list event) :
  imreads (t1 ++ t2) = imreads t1 ++ imreads t2.
Proof. apply omap_app. Qed.

Section Loop.
Variables (fs : os) (cv : cv2) (folder : string).
Variable body : dirent -> list image -> M (list image).
Variable warning : string -> string.

(** What both loop bodies have in common. *)
Hypothesis body_outcome : forall f acc,
  outcome (body f acc)
  = Ok (acc ++ option_list (imread cv (path_str fs folder (d_name f)))).
Hypothesis body_imreads : forall f acc,
  imreads (trace (body f acc)) = [path_str fs folder (d_name f)].
Hypothesis body_warns : forall f acc,
  imread cv (path_str fs folder (d_name f)) = None ->
  Print (warning (path_str fs folder (d_name f))) ∈ trace (body f acc).

(** The loop never raises: it returns the decoded images in the order of
    the files, reads every file once in that order, and prints a warning
    for every file that does not decode. *)
Lemma load_loop (files : list dirent) : forall acc : list image,
  outcome (for_each files body acc) = Ok (acc ++ decoded fs cv folder files)
  /\ imreads (trace (for_each files body acc))
     = (fun f => path_str fs folder (d_name f)) <$> files
  /\ forall f, f ∈ files ->
       imread cv (path_str fs folder (d_name f)) = None ->
       Print (warning (path_str fs folder (d_name f)))
       ∈ trace (for_each files body acc).
Proof using body_outcome body_imreads body_warns.
  induction files as [|f files IH]; intros acc.
  - simpl. rewrite app_nil_r. split; [done|]. split; [done|].
    intros f Hf. by apply elem_of_nil in Hf.
  - destruct (IH (acc ++ option_list (imread cv (path_str fs folder (d_name f)))))
      as (IHo & IHr & IHw).
    cbn [for_each].
    rewrite (bind_ok _ _ _ (body_outcome f acc)). cbn [outcome trace].
    split; [|split].
    + rewrite IHo, <- app_assoc. f_equal. unfold decoded. simpl.
      by destruct (imread cv _).
    + by rewrite imreads_app, body_imreads, IHr.
    + intros g Hg Hnone. apply elem_of_app.
      apply elem_of_cons in Hg as [-> | Hg]; [left; by apply body_warns|].
      right. by apply IHw.
Qed.
End Loop.

(** Both loaders are the same function of their loop body. *)
Lemma app_load_unfold (fs : os) (cv : cv2) (folder : string)
    (entries : list dirent) :
  path_exists fs folder = true -> iterdir fs folder = Ok entries ->
  App.load_images_from_folder fs cv folder
  = if (length (image_files_of entries) <? 2)%nat
    then raise (ValueError ("Need at least 2 images, found "
                 +:+ str_int (Z.of_nat (length (image_files_of entries)))))
    else bind (for_each (image_files_of entries) (App.load_one fs cv folder) [])
           (fun images =>
              if (length images <? 2)%nat
              then raise (ValueError ("Successfully loaded only "
                            +:+ str_int (Z.of_nat (length images))
                            +:+ " images, need at least 2"))
              else ret images).
Proof.
  intros He Hi. unfold App.load_images_from_folder. rewrite He, Hi. simpl.
  unfold mbind, M_bind, lift. by rewrite bind_pure.
Qed.

Lemma batch_load_unfold (fs : os) (cv : cv2) (folder : string)
    (entries : list dirent) :
  path_exists fs folder = true -> iterdir fs folder = Ok entries ->
  Batch.load_images_from_folder fs cv folder
  = if (length (image_files_of entries) <? 2)%nat
    then raise (ValueError ("Need at least 2 images, found "
                 +:+ str_int (Z.of_nat (length (image_files_of entries)))))
    else bind (for_each (image_files_of entries) (Batch.load_one fs cv folder) [])
           (fun images =>
              if (length images <? 2)%nat
              then raise (ValueError ("Successfully loaded only "
                            +:+ str_int (Z.of_nat (length images))
                            +:+ " images, need at least 2"))
              else ret images).
Proof.
  intros He Hi. unfold Batch.load_images_from_folder. rewrite He, Hi. simpl.
  unfold mbind, M_bind, lift. by rewrite bind_pure.
Qed.

(** The run of the loop of each loader. *)
Lemma app_load_loop (fs : os) (cv : cv2) (folder : string) (files : list dirent) :
  outcome (for_each files (App.load_one fs cv folder) [])
  = Ok (decoded fs cv folder files)
  /\ imreads (trace (for_each files (App.load_one fs cv folder) []))
     = (fun f => path_str fs folder (d_name f)) <$> files
  /\ forall f, f ∈ files ->
       imread cv (path_str fs folder (d_name f)) = None ->
       Print ("Warning: Could not load " +:+ path_str fs folder (d_name f))
       ∈ trace (for_each files (App.load_one fs cv folder) []).
Proof.
  apply (load_loop fs cv folder (App.load_one fs cv folder)
           (fun p => "Warning: Could not load " +:+ p)).
  - intros f acc. by rewrite app_load_one_run.
  - intros f acc. rewrite app_load_one_run. simpl. by destruct (imread cv _).
  - intros f acc Hn. rewrite app_load_one_run. simpl. rewrite Hn.
    apply elem_of_cons. right. by apply list_elem_of_singleton.
Qed.

Lemma batch_load_loop (fs : os) (cv : cv2) (folder : string) (files : list dirent) :
  outcome (for_each files (Batch.load_one fs cv folder) [])
  = Ok (decoded fs cv folder files)
  /\ imreads (trace (for_each files (Batch.load_one fs cv folder) []))
     = (fun f => path_str fs folder (d_name f)) <$> files
  /\ forall f, f ∈ files ->
       imread cv (path_str fs folder (d_name f)) = None ->
       Print ("  ✗ Warning: Could not load " +:+ path_str fs folder (d_name f))
       ∈ trace (for_each files (Batch.load_one fs cv folder) []).
Proof.
  apply (load_loop fs cv folder (Batch.load_one fs cv folder)
           (fun p => "  ✗ Warning: Could not load " +:+ p)).
  - intros f acc. by rewrite batch_load_one_run.
  - intros f acc. rewrite batch_load_one_run. simpl. by destruct (imread cv _).
  - intros f acc Hn. rewrite batch_load_one_run. simpl. rewrite Hn.
    do 2 (apply elem_of_cons; right). by apply list_elem_of_singleton.
Qed.

End LoaderFacts.

(** ** The claims about the loader *)

Module LoaderClaims.
Import Pathlib Common SpecWords Run SortFacts LoaderFacts Fixtures.

(** The check after the loop. *)
Lemma load_tail (loop : M (list image)) (images : list image) :
  outcome loop = Ok images ->
  let run := bind loop (fun images =>
               if (length images <? 2)%nat
               then raise (ValueError ("Successfully loaded only "
                             +:+ str_int (Z.of_nat (length images))
                             +:+ " images, need at least 2"))
               else ret images) in
  outcome run
  = (if (length images <? 2)%nat
     then Err (ValueError ("Successfully loaded only "
                 +:+ str_int (Z.of_nat (length images))
                 +:+ " images, need at least 2"))
     else Ok images)
  /\ trace run = trace loop.
Proof.
  intros Ho. simpl. rewrite (bind_ok _ _ _ Ho). simpl.
  destruct (length images <? 2)%nat; simpl; by rewrite app_nil_r.
Qed.

(** The loader keeps no more entries than match without regard to case. *)
Lemma image_files_of_length (entries : list dirent) :
  (length (image_files_of entries)
   <= length (filter (fun f => spec_selected f = true) entries))%nat.
Proof.
  unfold image_files_of. rewrite sorted_perm.
  induction entries as [|f entries IH]; [done|].
  rewrite !filter_cons.
  destruct (decide (is_image_file f = true)) as [Hf|Hf].
  - rewrite decide_True by by apply is_image_file_spec_selected. simpl. lia.
  - case_decide; simpl; lia.
Qed.

(** C5: in the service and in the batch tool, [load_images_from_folder]
    - on a path that does not exist raises [ValueError] "Folder ... does not
      exist" (DirectoryNotFound) and does nothing else;
    - on a directory with fewer than two matching files (one or none,
      whether matching is the loader's filter or the case-insensitive
      allow-set) raises [ValueError] "Need at least 2 images, found n"
      (InsufficientImages) and reads no file;
    - otherwise skips every file that does not decode, printing a warning
      for it, returns the decoded images in order when there are at least
      two, and raises [ValueError] "Successfully loaded only n images, need
      at least 2" (InsufficientImages) when there are fewer. *)
Theorem load_images_errors (fs : os) (cv : cv2) (folder : string) :
  (path_exists fs folder = false ->
   App.load_images_from_folder fs cv folder
   = mkM [] (Err (ValueError ("Folder " +:+ folder +:+ " does not exist")))
   /\ Batch.load_images_from_folder fs cv folder
      = mkM [] (Err (ValueError ("Folder " +:+ folder +:+ " does not exist"))))
  /\ (forall entries : list dirent,
       path_exists fs folder = true -> iterdir fs folder = Ok entries ->
       let files := image_files_of entries in
       let images := decoded fs cv folder files in
       let too_few_files :=
         ValueError ("Need at least 2 images, found "
                     +:+ str_int (Z.of_nat (length files))) in
       let too_few_images :=
         ValueError ("Successfully loaded only "
                     +:+ str_int (Z.of_nat (length images))
                     +:+ " images, need at least 2") in
       ((length (filter (fun f => spec_selected f = true) entries) < 2)%nat ->
        (length files < 2)%nat)
       /\ ((length files < 2)%nat ->
           App.load_images_from_folder fs cv folder = mkM [] (Err too_few_files)
           /\ Batch.load_images_from_folder fs cv folder
              = mkM [] (Err too_few_files))
       /\ ((2 <= length files)%nat ->
           outcome (App.load_images_from_folder fs cv folder)
           = (if (length images <? 2)%nat then Err too_few_images else Ok images)
           /\ outcome (Batch.load_images_from_folder fs cv folder)
              = (if (length images <? 2)%nat then Err too_few_images else Ok images)
           /\ forall f, f ∈ files ->
                imread cv (path_str fs folder (d_name f)) = None ->
                Print ("Warning: Could not load "
                       +:+ path_str fs folder (d_name f))
                ∈ trace (App.load_images_from_folder fs cv folder)
                /\ Print ("  ✗ Warning: Could not load "
                          +:+ path_str fs folder (d_name f))
                   ∈ trace (Batch.load_images_from_folder fs cv folder))).
Proof.
  split.
  - intros He. unfold App.load_images_from_folder, Batch.load_images_from_folder.
    by rewrite He.
  - intros entries He Hi files images too_few_files too_few_images.
    rewrite (app_load_unfold fs cv folder entries He Hi).
    rewrite (batch_load_unfold fs cv folder entries He Hi).
    fold files. split; [|split].
    + pose proof (image_files_of_length entries). subst files. lia.
    + intros Hlt. apply Nat.ltb_lt in Hlt. by rewrite Hlt.
    + intros Hge. apply Nat.ltb_ge in Hge. rewrite Hge.
      destruct (app_load_loop fs cv folder files) as (Ao & _ & Aw).
      destruct (batch_load_loop fs cv folder files) as (Bo & _ & Bw).
      destruct (load_tail _ _ Ao) as [Ao' At].
      destruct (load_tail _ _ Bo) as [Bo' Bt].
      split; [exact Ao'|]. split; [exact Bo'|].
      intros f Hf Hn. rewrite At, Bt. split; [by apply Aw | by apply Bw].
Qed.

Lemma load_images_errors_witness :
  App.load_images_from_folder (fs_with [file "a.jpg"]) cv_ok "Nope"
  = mkM [] (Err (ValueError "Folder Nope does not exist"))
  /\ Batch.load_images_from_folder (fs_with [file "a.jpg"]) cv_ok "Images"
     = mkM [] (Err (ValueError "Need at least 2 images, found 1"))
  /\ outcome (App.load_images_from_folder
                (fs_with [file "c.png"; file "bad.jpg"; file "a.jpg"]) cv_ok "Images")
     = Ok [pano_2x3; pano_2x3]
  /\ Print "Warning: Could not load bad.jpg"
     ∈ trace (App.load_images_from_folder
                (fs_with [file "c.png"; file "bad.jpg"; file "a.jpg"]) cv_ok "Images")
  /\ outcome (Batch.load_images_from_folder
                (fs_with [file "bad.jpg"; file "a.jpg"]) cv_ok "Images")
     = Err (ValueError "Successfully loaded only 1 images, need at least 2").
Proof.
  split; [|split; [|split; [|split]]].
  - exact (proj1 (proj1 (load_images_errors (fs_with [file "a.jpg"]) cv_ok "Nope")
                    eq_refl)).
  - destruct (proj2 (load_images_errors (fs_with [file "a.jpg"]) cv_ok "Images")
                [file "a.jpg"] eq_refl eq_refl) as (_ & H & _).
    apply H. vm_compute. lia.
  - destruct (proj2 (load_images_errors
                       (fs_with [file "c.png"; file "bad.jpg"; file "a.jpg"])
                       cv_ok "Images")
                [file "c.png"; file "bad.jpg"; file "a.jpg"] eq_refl eq_refl)
      as (_ & _ & H).
    apply H. vm_compute. lia.
  - destruct (proj2 (load_images_errors
                       (fs_with [file "c.png"; file "bad.jpg"; file "a.jpg"])
                       cv_ok "Images")
                [file "c.png"; file "bad.jpg"; file "a.jpg"] eq_refl eq_refl)
      as (_ & _ & H).
    destruct H as (_ & _ & H); [vm_compute; lia|].
    apply (H (file "bad.jpg")); [|reflexivity].
    apply elem_of_cons. right. apply elem_of_cons. by left.
  - destruct (proj2 (load_images_errors
                       (fs_with [file "bad.jpg"; file "a.jpg"]) cv_ok "Images")
                [file "bad.jpg"; file "a.jpg"] eq_refl eq_refl)
      as (_ & _ & H).
    apply H. vm_compute. lia.
Defined.

(** C6, as stated, fails: the regular file [b.Jpg] matches the allow-set
    without regard to case, yet the loader's filter rejects it, and the
    loader run on a directory that holds it never reads it. *)
Lemma mixed_case_extension_not_selected :
  d_is_file (file "b.Jpg") = true
  /\ spec_selected (file "b.Jpg") = true
  /\ is_image_file (file "b.Jpg") = false
  /\ image_files_of [file "c.png"; file "b.Jpg"; file "a.jpg"]
     = [file "a.jpg"; file "c.png"]
  /\ imreads (trace (App.load_images_from_folder
                       (fs_with [file "c.png"; file "b.Jpg"; file "a.jpg"])
                       cv_ok "Images"))
     = ["a.jpg"; "c.png"]
  /\ imreads (trace (Batch.load_images_from_folder
                       (fs_with [file "c.png"; file "b.Jpg"; file "a.jpg"])
                       cv_ok "Images"))
     = ["a.jpg"; "c.png"].
Proof. by vm_compute. Qed.

(** C6, amended: an entry is selected if and only if it is a regular file
    whose suffix is literally one of [.jpg], [.jpeg], [.png], [.JPG],
    [.JPEG], [.PNG]; every selected entry matches the allow-set without
    regard to case; the selected entries are the filtered entries in the
    order of their file names, and both loaders read them in that order. *)
Theorem selection_and_order (fs : os) (cv : cv2) (folder : string)
    (entries : list dirent) :
  path_exists fs folder = true -> iterdir fs folder = Ok entries ->
  (2 <= length (image_files_of entries))%nat ->
  (forall f, f ∈ image_files_of entries
     <-> f ∈ entries /\ d_is_file f = true
         /\ suffix (d_name f)
            ∈ [".jpg"; ".jpeg"; ".png"; ".JPG"; ".JPEG"; ".PNG"])
  /\ (forall f, f ∈ image_files_of entries -> spec_selected f = true)
  /\ image_files_of entries ≡ₚ filter (fun f => is_image_file f = true) entries
  /\ StronglySorted name_le (image_files_of entries)
  /\ imreads (trace (App.load_images_from_folder fs cv folder))
     = (fun f => path_str fs folder (d_name f)) <$> image_files_of entries
  /\ imreads (trace (Batch.load_images_from_folder fs cv folder))
     = (fun f => path_str fs folder (d_name f)) <$> image_files_of entries.
Proof.
  intros He Hi Hge. split; [|split; [|split; [|split; [|split]]]].
  - apply elem_of_image_files_of.
  - intros f Hf. apply is_image_file_spec_selected.
    unfold image_files_of in Hf. rewrite sorted_perm in Hf.
    by apply list_elem_of_filter in Hf as [? _].
  - apply sorted_perm.
  - apply Sorted_StronglySorted; [apply _|]. apply sorted_Sorted.
  - rewrite (app_load_unfold fs cv folder entries He Hi).
    apply Nat.ltb_ge in Hge. rewrite Hge.
    destruct (app_load_loop fs cv folder (image_files_of entries)) as (Ao & Ar & _).
    destruct (load_tail _ _ Ao) as [_ At]. simpl in At. by rewrite At.
  - rewrite (batch_load_unfold fs cv folder entries He Hi).
    apply Nat.ltb_ge in Hge. rewrite Hge.
    destruct (batch_load_loop fs cv folder (image_files_of entries)) as (Bo & Br & _).
    destruct (load_tail _ _ Bo) as [_ Bt]. simpl in Bt. by rewrite Bt.
Qed.

Lemma selection_and_order_witness :
  (forall f, f ∈ image_files_of mixed_entries
     <-> f ∈ mixed_entries /\ d_is_file f = true
         /\ suffix (d_name f)
            ∈ [".jpg"; ".jpeg"; ".png"; ".JPG"; ".JPEG"; ".PNG"])
  /\ (forall f, f ∈ image_files_of mixed_entries -> spec_selected f = true)
  /\ image_files_of mixed_entries
     ≡ₚ filter (fun f => is_image_file f = true) mixed_entries
  /\ StronglySorted name_le (image_files_of mixed_entries)
  /\ imreads (trace (App.load_images_from_folder
                       (fs_with mixed_entries) cv_ok "Images"))
     = (fun f => path_str (fs_with mixed_entries) "Images" (d_name f))
       <$> image_files_of mixed_entries
  /\ imreads (trace (Batch.load_images_from_folder
                       (fs_with mixed_entries) cv_ok "Images"))
     = (fun f => path_str (fs_with mixed_entries) "Images" (d_name f))
       <$> image_files_of mixed_entries.
Proof.
  apply (selection_and_order (fs_with mixed_entries) cv_ok "Images" mixed_entries);
    [reflexivity | reflexivity | vm_compute; lia].
Defined.

End LoaderClaims.

(** ** The stitch orchestration *)

Module StitchFacts.
Import Common SpecWords Run.

(** The dictionary of the batch tool is the classification of section 4.2. *)
Lemma error_msg_classify (status : Z) :
  Batch.error_msg status = kind_message (classify status).
Proof.
  unfold Batch.error_msg, Batch.error_codes, classify.
  destruct (Z.eqb_spec status 1) as [->|H1]; [done|].
  destruct (Z.eqb_spec status 2) as [->|H2]; [done|].
  destruct (Z.eqb_spec status 3) as [->|H3]; [done|].
  by rewrite !lookup_insert_ne, lookup_singleton_ne by done.
Qed.

(** Runs a stitch function on an environment described by hypotheses on the
    available modes, the engine's answers and their statuses. *)
Ltac run_stitch :=
  unfold Batch.stitch_images, App.stitch_images, mbind, M_bind, bind, try_,
    Stitcher_create, stitcher_stitch, print, emit, ret, raise;
  repeat (simpl;
          match goal with
          | H : has_Stitcher_SCANS _ = _ |- _ => rewrite !H
          | H : has_Stitcher_PANORAMA _ = _ |- _ => rewrite !H
          | H : stitch _ _ _ = _ |- _ => rewrite !H
          | H : (_ =? Stitcher_OK) = _ |- _ => rewrite !H
          end); simpl.

Section Engine.
Variables (cv : cv2) (images : list image).
Variables (s1 s2 : Z) (p1 p2 : image).
Hypothesis has_panorama : has_Stitcher_PANORAMA cv = true.
Hypothesis scans_run : stitch cv SCANS images = (s1, p1).
Hypothesis panorama_run : stitch cv PANORAMA images = (s2, p2).

(** The batch tool with SCANS available. *)
Lemma batch_scans_ok :
  has_Stitcher_SCANS cv = true -> (s1 =? Stitcher_OK) = true ->
  outcome (Batch.stitch_images cv images) = Ok p1
  /\ stitch_attempts (trace (Batch.stitch_images cv images)) = [SCANS].
Proof using scans_run.
  intros. clear has_panorama panorama_run. by run_stitch.
Qed.

Lemma batch_scans_fails :
  has_Stitcher_SCANS cv = true -> (s1 =? Stitcher_OK) = false ->
  outcome (Batch.stitch_images cv images)
  = (if s2 =? Stitcher_OK then Ok p2 else Err (RuntimeError (Batch.error_msg s2)))
  /\ stitch_attempts (trace (Batch.stitch_images cv images)) = [SCANS; PANORAMA].
Proof using has_panorama scans_run panorama_run.
  intros. destruct (s2 =? Stitcher_OK) eqn:E; by run_stitch.
Qed.

(** The batch tool without SCANS. *)
Lemma batch_no_scans_ok :
  has_Stitcher_SCANS cv = false -> (s2 =? Stitcher_OK) = true ->
  outcome (Batch.stitch_images cv images) = Ok p2
  /\ stitch_attempts (trace (Batch.stitch_images cv images)) = [PANORAMA].
Proof using has_panorama panorama_run.
  intros. clear scans_run. by run_stitch.
Qed.

Lemma batch_no_scans_fails :
  has_Stitcher_SCANS cv = false -> (s2 =? Stitcher_OK) = false ->
  outcome (Batch.stitch_images cv images)
  = Err (RuntimeError (Batch.error_msg s2))
  /\ stitch_attempts (trace (Batch.stitch_images cv images))
     = [PANORAMA; PANORAMA].
Proof using has_panorama panorama_run.
  intros. clear scans_run. by run_stitch.
Qed.

(** The service: one run in PANORAMA mode. *)
Lemma app_stitch_run :
  App.stitch_images cv images
  = mkM [Stitch PANORAMA]
      (if s2 =? Stitcher_OK then Ok p2
       else Err (RuntimeError ("Stitching failed with status " +:+ str_int s2))).
Proof using has_panorama panorama_run.
  clear scans_run. destruct (s2 =? Stitcher_OK) eqn:E; by run_stitch.
Qed.
End Engine.

End StitchFacts.

(** ** The claims about the stitch orchestration *)

Module StitchClaims.
Import Common SpecWords Run StitchFacts Fixtures.

(** C2, as stated, fails for the service: where the engine would succeed
    in SCANS mode and fails in PANORAMA mode, the specification's policy
    runs SCANS, the batch tool does and returns the panorama, but the
    service runs PANORAMA only and raises; and when the engine fails the
    service does not run it a second time. *)
Lemma service_never_tries_scans :
  spec_attempts cv_scans_only_succeeds [pano_2x3; pano_2x3] = [SCANS]
  /\ stitch_attempts
       (trace (Batch.stitch_images cv_scans_only_succeeds [pano_2x3; pano_2x3]))
     = [SCANS]
  /\ outcome (Batch.stitch_images cv_scans_only_succeeds [pano_2x3; pano_2x3])
     = Ok pano_2x3
  /\ stitch_attempts
       (trace (App.stitch_images cv_scans_only_succeeds [pano_2x3; pano_2x3]))
     = [PANORAMA]
  /\ outcome (App.stitch_images cv_scans_only_succeeds [pano_2x3; pano_2x3])
     = Err (RuntimeError "Stitching failed with status 1")
  /\ spec_attempts (cv_failing 2) [pano_2x3; pano_2x3] = [SCANS; PANORAMA]
  /\ stitch_attempts (trace (App.stitch_images (cv_failing 2) [pano_2x3; pano_2x3]))
     = [PANORAMA].
Proof. by vm_compute. Qed.

(** C2, amended: with PANORAMA available, the batch tool, when SCANS is
    available, runs the engine as section 4.2 says: SCANS first, and on
    failure exactly one more run, in PANORAMA mode, whose result decides;
    when SCANS is unavailable its first run is in PANORAMA mode and a
    success is returned. The service runs the engine exactly once, in
    PANORAMA mode, and raises when that run fails. *)
Theorem stitch_mode_policy (cv : cv2) (images : list image) :
  has_Stitcher_PANORAMA cv = true ->
  let s1 := fst (stitch cv SCANS images) in
  let p1 := snd (stitch cv SCANS images) in
  let s2 := fst (stitch cv PANORAMA images) in
  let p2 := snd (stitch cv PANORAMA images) in
  (has_Stitcher_SCANS cv = true ->
   stitch_attempts (trace (Batch.stitch_images cv images))
   = spec_attempts cv images
   /\ stitch_attempts (trace (Batch.stitch_images cv images))
      = (if s1 =? Stitcher_OK then [SCANS] else [SCANS; PANORAMA])
   /\ outcome (Batch.stitch_images cv images)
      = (if s1 =? Stitcher_OK then Ok p1
         else if s2 =? Stitcher_OK then Ok p2
         else Err (RuntimeError (Batch.error_msg s2))))
  /\ (has_Stitcher_SCANS cv = false ->
      exists rest,
        stitch_attempts (trace (Batch.stitch_images cv images)) = PANORAMA :: rest
        /\ ((s2 =? Stitcher_OK) = true ->
            rest = [] /\ outcome (Batch.stitch_images cv images) = Ok p2))
  /\ stitch_attempts (trace (App.stitch_images cv images)) = [PANORAMA]
  /\ outcome (App.stitch_images cv images)
     = (if s2 =? Stitcher_OK then Ok p2
        else Err (RuntimeError ("Stitching failed with status " +:+ str_int s2))).
Proof.
  intros Hp s1 p1 s2 p2.
  assert (E1 : stitch cv SCANS images = (s1, p1)) by apply surjective_pairing.
  assert (E2 : stitch cv PANORAMA images = (s2, p2)) by apply surjective_pairing.
  split; [|split].
  - intros Hs. unfold spec_attempts. rewrite Hs. fold s1.
    destruct (s1 =? Stitcher_OK) eqn:Es.
    + destruct (batch_scans_ok cv images s1 p1 E1 Hs Es) as [-> ->]. done.
    + destruct (batch_scans_fails cv images s1 s2 p1 p2 Hp E1 E2 Hs Es) as [-> ->].
      done.
  - intros Hs. destruct (s2 =? Stitcher_OK) eqn:Es.
    + destruct (batch_no_scans_ok cv images s2 p2 Hp E2 Hs Es) as [-> ->].
      by exists [].
    + destruct (batch_no_scans_fails cv images s2 p2 Hp E2 Hs Es) as [_ ->].
      by exists [PANORAMA].
  - by rewrite (app_stitch_run cv images s2 p2 Hp E2).
Qed.

Lemma stitch_mode_policy_witness :
  (has_Stitcher_SCANS cv_scans_only_succeeds = true ->
   stitch_attempts
     (trace (Batch.stitch_images cv_scans_only_succeeds [pano_2x3; pano_2x3]))
   = spec_attempts cv_scans_only_succeeds [pano_2x3; pano_2x3]
   /\ stitch_attempts
        (trace (Batch.stitch_images cv_scans_only_succeeds [pano_2x3; pano_2x3]))
      = [SCANS]
   /\ outcome (Batch.stitch_images cv_scans_only_succeeds [pano_2x3; pano_2x3])
      = Ok pano_2x3)
  /\ (has_Stitcher_SCANS cv_scans_only_succeeds = false ->
      exists rest,
        stitch_attempts
          (trace (Batch.stitch_images cv_scans_only_succeeds [pano_2x3; pano_2x3]))
        = PANORAMA :: rest
        /\ ((1 =? Stitcher_OK) = true ->
            rest = []
            /\ outcome (Batch.stitch_images cv_scans_only_succeeds
                          [pano_2x3; pano_2x3])
               = Ok []))
  /\ stitch_attempts
       (trace (App.stitch_images cv_scans_only_succeeds [pano_2x3; pano_2x3]))
     = [PANORAMA]
  /\ outcome (App.stitch_images cv_scans_only_succeeds [pano_2x3; pano_2x3])
     = Err (RuntimeError "Stitching failed with status 1").
Proof.
  apply (stitch_mode_policy cv_scans_only_succeeds [pano_2x3; pano_2x3]).
  reflexivity.
Defined.

(** C4, as stated, fails for the service: when the engine returns status 1
    in both modes, the kind of the failure is InsufficientOverlap and the
    batch tool raises its message, but the service raises the one message it
    has for every status. *)
Lemma service_does_not_classify :
  fst (stitch (cv_failing 1) SCANS [pano_2x3; pano_2x3]) = 1
  /\ fst (stitch (cv_failing 1) PANORAMA [pano_2x3; pano_2x3]) = 1
  /\ classify 1 = InsufficientOverlap
  /\ outcome (Batch.stitch_images (cv_failing 1) [pano_2x3; pano_2x3])
     = Err (RuntimeError (kind_message InsufficientOverlap))
  /\ outcome (App.stitch_images (cv_failing 1) [pano_2x3; pano_2x3])
     = Err (RuntimeError "Stitching failed with status 1")
  /\ outcome (App.stitch_images (cv_failing 1) [pano_2x3; pano_2x3])
     <> Err (RuntimeError (kind_message (classify 1))).
Proof. repeat split; by vm_compute. Qed.

(** C4, amended: when the engine fails in both modes (PANORAMA available),
    the batch tool raises [RuntimeError] with the message of the
    classification of the status PANORAMA returned (1 InsufficientOverlap,
    2 HomographyEstimationFailed, 3 CameraParameterAdjustmentFailed, any
    other code UnknownEngineFailure), after at most two runs of the engine;
    the service raises [RuntimeError] "Stitching failed with status <code>"
    for every status, after its single run. Neither returns an image. *)
Theorem stitch_failure_classified (cv : cv2) (images : list image) :
  has_Stitcher_PANORAMA cv = true ->
  fst (stitch cv SCANS images) <> Stitcher_OK ->
  fst (stitch cv PANORAMA images) <> Stitcher_OK ->
  let s2 := fst (stitch cv PANORAMA images) in
  outcome (Batch.stitch_images cv images)
  = Err (RuntimeError (kind_message (classify s2)))
  /\ (length (stitch_attempts (trace (Batch.stitch_images cv images))) <= 2)%nat
  /\ (has_Stitcher_SCANS cv = true ->
      stitch_attempts (trace (Batch.stitch_images cv images)) = [SCANS; PANORAMA])
  /\ outcome (App.stitch_images cv images)
     = Err (RuntimeError ("Stitching failed with status " +:+ str_int s2))
  /\ stitch_attempts (trace (App.stitch_images cv images)) = [PANORAMA]
  /\ classify 1 = InsufficientOverlap
  /\ classify 2 = HomographyEstimationFailed
  /\ classify 3 = CameraParameterAdjustmentFailed
  /\ (forall code, code <> 1 -> code <> 2 -> code <> 3 ->
      classify code = UnknownEngineFailure code).
Proof.
  intros Hp F1 F2 s2.
  destruct (stitch cv SCANS images) as [s1 p1] eqn:E1.
  destruct (stitch cv PANORAMA images) as [s2' p2] eqn:E2.
  simpl in F1, F2, s2. subst s2.
  apply Z.eqb_neq in F1, F2.
  rewrite <- error_msg_classify.
  assert (Hc : forall code, code <> 1 -> code <> 2 -> code <> 3 ->
               classify code = UnknownEngineFailure code).
  { intros code H1 H2 H3. unfold classify.
    by rewrite !(proj2 (Z.eqb_neq _ _)) by done. }
  assert (Ha : App.stitch_images cv images
               = mkM [Stitch PANORAMA]
                   (Err (RuntimeError ("Stitching failed with status "
                                       +:+ str_int s2')))).
  { rewrite (app_stitch_run cv images s2' p2 Hp E2). by rewrite F2. }
  rewrite Ha. cbn [outcome trace].
  destruct (has_Stitcher_SCANS cv) eqn:Hs.
  - destruct (batch_scans_fails cv images s1 s2' p1 p2 Hp E1 E2 Hs F1) as [-> ->].
    rewrite F2. repeat split; try done; simpl; lia.
  - destruct (batch_no_scans_fails cv images s2' p2 Hp E2 Hs F2) as [-> ->].
    repeat split; try done; simpl; lia.
Qed.

Lemma stitch_failure_classified_witness :
  outcome (Batch.stitch_images (cv_failing 2) [pano_2x3; pano_2x3])
  = Err (RuntimeError (kind_message (classify 2)))
  /\ (length (stitch_attempts
               (trace (Batch.stitch_images (cv_failing 2) [pano_2x3; pano_2x3])))
      <= 2)%nat
  /\ (has_Stitcher_SCANS (cv_failing 2) = true ->
      stitch_attempts
        (trace (Batch.stitch_images (cv_failing 2) [pano_2x3; pano_2x3]))
      = [SCANS; PANORAMA])
  /\ outcome (App.stitch_images (cv_failing 2) [pano_2x3; pano_2x3])
     = Err (RuntimeError ("Stitching failed with status " +:+ str_int 2))
  /\ stitch_attempts
       (trace (App.stitch_images (cv_failing 2) [pano_2x3; pano_2x3]))
     = [PANORAMA]
  /\ classify 1 = InsufficientOverlap
  /\ classify 2 = HomographyEstimationFailed
  /\ classify 3 = CameraParameterAdjustmentFailed
  /\ (forall code, code <> 1 -> code <> 2 -> code <> 3 ->
      classify code = UnknownEngineFailure code).
Proof.
  apply (stitch_failure_classified (cv_failing 2) [pano_2x3; pano_2x3]);
    [reflexivity | simpl; unfold Stitcher_OK; lia | simpl; unfold Stitcher_OK; lia].
Defined.

End StitchClaims.

(** ** The HTTP handlers *)

Module HttpFacts.
Import Numpy Projector Common SpecWords Run Loops ProjectorFacts LoaderFacts StitchFacts.

(** The [except Exception] clause of both handlers: the events of the
    [try] block, its result, or status 500 with the text of its exception. *)
Lemma try_500 {A} (body : M A) :
  try_ body (fun e => raise (HTTPException 500 (str_exn e)))
  = mkM (trace body)
      (match outcome body with
       | Ok a => Ok a
       | Err e => Err (HTTPException 500 (str_exn e))
       end).
Proof.
  unfold try_. destruct body as [t [a|e]]; simpl; [done|].
  by rewrite app_nil_r.
Qed.

(** Decoding the uploads, when all of them decode. *)
Lemma read_images_ok (cv : cv2) (images : list bytes) (imgs : list image) :
  mapM (imdecode cv) images = Some imgs ->
  mapM (App.read_image cv) images = mkM (Imdecode <$> images) (Ok imgs).
Proof.
  revert imgs. induction images as [|d images IH]; intros imgs H.
  - by injection H as <-.
  - simpl in H. destruct (imdecode cv d) as [img|] eqn:Ed; [|done].
    simpl in H. destruct (mapM (imdecode cv) images) as [imgs'|] eqn:Em; [|done].
    injection H as <-. cbn [mapM]. rewrite (IH imgs' eq_refl).
    unfold mbind, M_bind, bind, App.read_image, emit, ret, mret, M_ret.
    simpl. rewrite Ed. simpl. by rewrite app_nil_r.
Qed.

(** Decoding the uploads, when one of them does not decode: the uploads
    after it are not touched. *)
Lemma read_images_err (cv : cv2) (pre : list bytes) (bad : bytes)
    (post : list bytes) :
  Forall (fun d => is_Some (imdecode cv d)) pre -> imdecode cv bad = None ->
  mapM (App.read_image cv) (pre ++ bad :: post)
  = mkM (Imdecode <$> (pre ++ [bad])) (Err (ValueError "Invalid image file")).
Proof.
  intros Hpre Hbad. induction Hpre as [|d pre [img Ed] _ IH].
  - cbn [mapM app].
    unfold mbind, M_bind, bind, App.read_image, emit, raise. simpl.
    by rewrite Hbad.
  - cbn [mapM app] in *. rewrite IH.
    unfold mbind, M_bind, bind, App.read_image, emit, ret. simpl.
    by rewrite Ed.
Qed.

(** The service's projector at the default size never raises. *)
Lemma app_project_default (cv : cv2) (pano : image) :
  exists x_map y_map,
    build_maps (fst (shape pano)) (snd (shape pano)) 2048 1024 = Ok (x_map, y_map)
    /\ App.pano_to_equirectangular cv pano 2048 1024
       = mkM [Remap] (Ok (zip_with (zip_with (sample cv pano)) x_map y_map)).
Proof.
  destruct (build_maps_spec (fst (shape pano)) (snd (shape pano)) 2048 1024)
    as (xm & ym & E & _); [lia..|].
  exists xm, ym. split; [done|]. by apply app_project_run.
Qed.

(** Encoding. *)
Lemma jpeg_response_err (cv : cv2) (equirect : image) (filename : string) (e : exn) :
  imencode cv ".jpg" equirect 95 = Err e ->
  App.jpeg_response cv equirect filename = mkM [Imencode] (Err e).
Proof.
  intros E. unfold App.jpeg_response, mbind, M_bind, bind, emit, lift. simpl.
  by rewrite E.
Qed.

End HttpFacts.

(** ** The claims about the HTTP handlers *)

Module HttpClaims.
Import Numpy Projector Common SpecWords Run Loops ProjectorFacts LoaderFacts.
Import StitchFacts HttpFacts Fixtures.

(** C7, as stated, fails: an upload that does not decode, a directory that
    does not exist and a directory with a single image are all answered
    with status 500, not 400. *)
Lemma bad_input_answers_500 :
  App.http_reply (outcome (App.stitch_360 cv_ok [[Byte.x00]; []]))
  = (500, App.Json [("detail", "Invalid image file")])
  /\ App.http_reply
       (outcome (App.stitch_from_folder (fs_with mixed_entries) cv_ok "Nope" true))
     = (500, App.Json [("detail", "Folder Nope does not exist")])
  /\ App.http_reply
       (outcome (App.stitch_from_folder (fs_with [file "a.jpg"]) cv_ok "Images" true))
     = (500, App.Json [("detail", "Need at least 2 images, found 1")]).
Proof. by vm_compute. Qed.

Lemma stitch_360_many (cv : cv2) (images : list bytes) :
  (2 <= length images)%nat ->
  App.stitch_360 cv images
  = mkM (trace (App.stitch_360_try cv images))
      (match outcome (App.stitch_360_try cv images) with
       | Ok r => Ok r
       | Err e => Err (HTTPException 500 (str_exn e))
       end).
Proof.
  intros H. unfold App.stitch_360. apply Nat.ltb_ge in H. rewrite H.
  apply try_500.
Qed.

Lemma stitch_360_try_unfold (cv : cv2) (images : list bytes) :
  App.stitch_360_try cv images
  = bind (mapM (App.read_image cv) images) (fun cv_images =>
      bind (App.stitch_images cv cv_images) (fun pano =>
        bind (App.pano_to_equirectangular cv pano 2048 1024) (fun equirect =>
          App.jpeg_response cv equirect "360.jpg"))).
Proof. reflexivity. Qed.

Lemma stitch_from_folder_try_unfold (fs : os) (cv : cv2) (folder : string)
    (save_output : bool) :
  exists rest,
    App.stitch_from_folder_try fs cv folder save_output
    = bind (App.load_images_from_folder fs cv folder) rest.
Proof. by eexists. Qed.

(** C7, amended. [POST /stitch-360] answers 400 exactly when fewer than two
    files are uploaded, before anything else happens. Every other failure
    of either endpoint is answered with status 500 and the JSON object
    [detail: <text of the exception>]: an upload that does not decode (the
    later uploads are not decoded, the engine is not run), a failed stitch
    (nothing is projected or encoded), a failed encoding, a directory that
    does not exist or holds fewer than two images (nothing is read). *)
Theorem http_error_mapping (fs : os) (cv : cv2) :
  (forall images : list bytes,
     (length images < 2)%nat ->
     App.stitch_360 cv images
     = mkM [] (Err (HTTPException 400 "At least two images required")))
  /\ (forall (pre : list bytes) (bad : bytes) (post : list bytes),
       (2 <= length (pre ++ bad :: post))%nat ->
       Forall (fun d => is_Some (imdecode cv d)) pre -> imdecode cv bad = None ->
       App.stitch_360 cv (pre ++ bad :: post)
       = mkM (Imdecode <$> (pre ++ [bad]))
           (Err (HTTPException 500 "Invalid image file")))
  /\ (forall (images : list bytes) (cv_images : list image) (status : Z)
            (pano : image),
       (2 <= length images)%nat -> mapM (imdecode cv) images = Some cv_images ->
       has_Stitcher_PANORAMA cv = true ->
       stitch cv PANORAMA cv_images = (status, pano) -> status <> Stitcher_OK ->
       App.stitch_360 cv images
       = mkM ((Imdecode <$> images) ++ [Stitch PANORAMA])
           (Err (HTTPException 500
                   ("Stitching failed with status " +:+ str_int status))))
  /\ (forall (images : list bytes) (cv_images : list image) (pano : image)
            (x_map y_map : ndarray2) (e : exn),
       (2 <= length images)%nat -> mapM (imdecode cv) images = Some cv_images ->
       has_Stitcher_PANORAMA cv = true ->
       stitch cv PANORAMA cv_images = (Stitcher_OK, pano) ->
       build_maps (fst (shape pano)) (snd (shape pano)) 2048 1024
       = Ok (x_map, y_map) ->
       imencode cv ".jpg" (zip_with (zip_with (sample cv pano)) x_map y_map) 95
       = Err e ->
       App.stitch_360 cv images
       = mkM ((Imdecode <$> images) ++ [Stitch PANORAMA; Remap; Imencode])
           (Err (HTTPException 500 (str_exn e))))
  /\ (forall (folder : string) (save_output : bool),
       path_exists fs folder = false ->
       App.stitch_from_folder fs cv folder save_output
       = mkM [] (Err (HTTPException 500
                        ("Folder " +:+ folder +:+ " does not exist"))))
  /\ (forall (folder : string) (save_output : bool) (entries : list dirent),
       path_exists fs folder = true -> iterdir fs folder = Ok entries ->
       (length (image_files_of entries) < 2)%nat ->
       App.stitch_from_folder fs cv folder save_output
       = mkM [] (Err (HTTPException 500
                        ("Need at least 2 images, found "
                         +:+ str_int (Z.of_nat (length (image_files_of entries)))))))
  /\ (forall images : list bytes,
       match outcome (App.stitch_360 cv images) with
       | Ok _ => True
       | Err (HTTPException code _) =>
           (code = 400 /\ (length images < 2)%nat)
           \/ (code = 500 /\ (2 <= length images)%nat)
       | Err _ => False
       end)
  /\ (forall (folder : string) (save_output : bool),
       match outcome (App.stitch_from_folder fs cv folder save_output) with
       | Ok _ => True
       | Err (HTTPException code _) => code = 500
       | Err _ => False
       end)
  /\ (forall (code : Z) (detail : string),
       App.http_reply (Err (HTTPException code detail))
       = (code, App.Json [("detail", detail)])).
Proof.
  repeat apply conj.
  - intros images H. unfold App.stitch_360. apply Nat.ltb_lt in H. by rewrite H.
  - intros pre bad post Hl Hpre Hbad. rewrite stitch_360_many by done.
    rewrite stitch_360_try_unfold.
    rewrite (read_images_err cv pre bad post Hpre Hbad).
    by rewrite (bind_err _ _ (ValueError "Invalid image file")).
  - intros images cv_images status pano Hl Hd Hp Hs Hne.
    rewrite stitch_360_many by done.
    rewrite stitch_360_try_unfold.
    rewrite (read_images_ok cv images cv_images Hd).
    rewrite (bind_ok _ _ cv_images) by done.
    rewrite (app_stitch_run cv cv_images status pano Hp Hs).
    apply Z.eqb_neq in Hne. rewrite Hne.
    by rewrite (bind_err _ _ (RuntimeError ("Stitching failed with status "
                                            +:+ str_int status))).
  - intros images cv_images pano xm ym e Hl Hd Hp Hs Hm He.
    rewrite stitch_360_many by done.
    rewrite stitch_360_try_unfold.
    rewrite (read_images_ok cv images cv_images Hd).
    rewrite (bind_ok _ _ cv_images) by done.
    rewrite (app_stitch_run cv cv_images Stitcher_OK pano Hp Hs).
    rewrite Z.eqb_refl.
    rewrite (bind_ok _ _ pano) by done.
    rewrite (app_project_run cv pano 2048 1024 xm ym Hm).
    rewrite (bind_ok _ _ (zip_with (zip_with (sample cv pano)) xm ym)) by done.
    by rewrite (jpeg_response_err cv _ "360.jpg" e He).
  - intros folder save He. unfold App.stitch_from_folder. rewrite try_500.
    destruct (stitch_from_folder_try_unfold fs cv folder save) as [rest ->].
    unfold App.load_images_from_folder. rewrite He. cbn [negb].
    by rewrite (bind_err _ _ (ValueError ("Folder " +:+ folder
                                          +:+ " does not exist"))).
  - intros folder save entries He Hi Hl. unfold App.stitch_from_folder.
    rewrite try_500.
    destruct (stitch_from_folder_try_unfold fs cv folder save) as [rest ->].
    rewrite (app_load_unfold fs cv folder entries He Hi).
    apply Nat.ltb_lt in Hl. rewrite Hl.
    by rewrite (bind_err _ _ (ValueError ("Need at least 2 images, found "
                 +:+ str_int (Z.of_nat (length (image_files_of entries)))))).
  - intros images. destruct (Nat.ltb_spec (length images) 2) as [Hlt|Hge].
    + unfold App.stitch_360. apply Nat.ltb_lt in Hlt as Hb. rewrite Hb. simpl.
      left. split; [done|lia].
    + rewrite stitch_360_many by done. simpl.
      destruct (outcome (App.stitch_360_try cv images)); [done|].
      right. split; [done|lia].
  - intros folder save. unfold App.stitch_from_folder. rewrite try_500. simpl.
    by destruct (outcome (App.stitch_from_folder_try fs cv folder save)).
  - done.
Qed.

Lemma http_error_mapping_witness :
  App.stitch_360 cv_ok [[Byte.x00]]
  = mkM [] (Err (HTTPException 400 "At least two images required"))
  /\ App.stitch_360 cv_ok ([[Byte.x00]] ++ [] :: [[Byte.x01]])
     = mkM (Imdecode <$> ([[Byte.x00]] ++ [[]]))
         (Err (HTTPException 500 "Invalid image file"))
  /\ App.stitch_360 (cv_failing 3) [[Byte.x00]; [Byte.x01]]
     = mkM ((Imdecode <$> [[Byte.x00]; [Byte.x01]]) ++ [Stitch PANORAMA])
         (Err (HTTPException 500 ("Stitching failed with status " +:+ str_int 3)))
  /\ App.stitch_from_folder (fs_with mixed_entries) cv_ok "Nope" true
     = mkM [] (Err (HTTPException 500 ("Folder " +:+ "Nope" +:+ " does not exist"))).
Proof.
  split; [|split; [|split]].
  - destruct (http_error_mapping (fs_with mixed_entries) cv_ok) as (H & _).
    apply H. simpl. lia.
  - destruct (http_error_mapping (fs_with mixed_entries) cv_ok) as (_ & H & _).
    apply H; [simpl; lia | | reflexivity].
    apply Forall_cons. split; [by eexists | apply Forall_nil_2].
  - destruct (http_error_mapping (fs_with mixed_entries) (cv_failing 3))
      as (_ & _ & H & _).
    apply (H [[Byte.x00]; [Byte.x01]] [pano_2x3; pano_2x3] 3 []);
      [simpl; lia | reflexivity | reflexivity | reflexivity
       | unfold Stitcher_OK; lia].
  - destruct (http_error_mapping (fs_with mixed_entries) cv_ok)
      as (_ & _ & _ & _ & H & _).
    apply H. reflexivity.
Defined.

End HttpClaims.

(** * Further properties of the code *)

(** ** The projector *)

Module ProjectorExtras.
Import Numpy Projector Common Arith Loops ProjectorFacts Run Fixtures.











End ProjectorExtras.

(** ** The stitch functions in every environment *)

Module StitchExtras.
Import Common SpecWords Run StitchFacts Fixtures.

(** Splits on everything a stitch function looks at and runs it. *)
Ltac stitch_cases cv images :=
  let s1 := fresh "s1" in let p1 := fresh "p1" in
  let s2 := fresh "s2" in let p2 := fresh "p2" in
  destruct (has_Stitcher_SCANS cv) eqn:?;
  destruct (has_Stitcher_PANORAMA cv) eqn:?;
  destruct (stitch cv SCANS images) as [s1 p1] eqn:?;
  destruct (stitch cv PANORAMA images) as [s2 p2] eqn:?;
  destruct (s1 =? Stitcher_OK) eqn:?;
  destruct (s2 =? Stitcher_OK) eqn:?;
  run_stitch.

(** Every run of the batch tool's stitch function, at once. *)
Lemma batch_stitch_summary (cv : cv2) (images : list image) :
  (forall pano,
     outcome (Batch.stitch_images cv images) = Ok pano ->
     exists mode,
       last (stitch_attempts (trace (Batch.stitch_images cv images))) = Some mode
       /\ stitch cv mode images = (Stitcher_OK, pano))
  /\ (length (stitch_attempts (trace (Batch.stitch_images cv images))) <= 2)%nat
  /\ Forall Observe.is_stitch_or_print (trace (Batch.stitch_images cv images)).
Proof.
  destruct (has_Stitcher_SCANS cv) eqn:?;
  destruct (has_Stitcher_PANORAMA cv) eqn:?;
  destruct (stitch cv SCANS images) as [s1 p1] eqn:?;
  destruct (stitch cv PANORAMA images) as [s2 p2] eqn:?;
  destruct (s1 =? Stitcher_OK) eqn:?;
  destruct (s2 =? Stitcher_OK) eqn:?;
  (eassert (E : Batch.stitch_images cv images = mkM _ _)
     by (run_stitch; reflexivity));
  rewrite E; cbn [trace outcome]; clear E;
  (split; [|split; [simpl; lia | repeat constructor]]);
  intros pano Ho; try discriminate; injection Ho as <-;
  repeat match goal with
         | H : (_ =? Stitcher_OK) = true |- _ => apply Z.eqb_eq in H; subst
         end;
  first [ by exists SCANS | by exists PANORAMA ].
Qed.

(** A stitch function never returns the panorama of a failed run: what the
    batch tool returns is the panorama of its last engine run, whose status
    was [Stitcher_OK]; what the service returns is the panorama of an OK run
    in PANORAMA mode. The batch tool runs the engine at most twice, the
    service at most once, whatever the build and the engine. *)
Theorem stitch_returns_ok_run (cv : cv2) (images : list image) :
  (forall pano,
     outcome (Batch.stitch_images cv images) = Ok pano ->
     exists mode,
       last (stitch_attempts (trace (Batch.stitch_images cv images))) = Some mode
       /\ stitch cv mode images = (Stitcher_OK, pano))
  /\ (forall pano,
        outcome (App.stitch_images cv images) = Ok pano ->
        stitch cv PANORAMA images = (Stitcher_OK, pano)
        /\ stitch_attempts (trace (App.stitch_images cv images)) = [PANORAMA])
  /\ (length (stitch_attempts (trace (Batch.stitch_images cv images))) <= 2)%nat
  /\ (length (stitch_attempts (trace (App.stitch_images cv images))) <= 1)%nat.
Proof.
  destruct (batch_stitch_summary cv images) as (Hb1 & Hb2 & _).
  assert (Ha : (forall pano,
                  outcome (App.stitch_images cv images) = Ok pano ->
                  stitch cv PANORAMA images = (Stitcher_OK, pano)
                  /\ stitch_attempts (trace (App.stitch_images cv images))
                     = [PANORAMA])
               /\ (length (stitch_attempts (trace (App.stitch_images cv images)))
                   <= 1)%nat).
  { destruct (has_Stitcher_PANORAMA cv) eqn:?;
    destruct (stitch cv PANORAMA images) as [s2 p2] eqn:?;
    destruct (s2 =? Stitcher_OK) eqn:?;
    (eassert (E : App.stitch_images cv images = mkM _ _)
       by (run_stitch; reflexivity));
    rewrite E; cbn [trace outcome]; clear E;
    (split; [|simpl; lia]); intros pano Ho; try discriminate;
      injection Ho as <-;
      repeat match goal with
             | H : (_ =? Stitcher_OK) = true |- _ => apply Z.eqb_eq in H; subst
             end; done. }
  destruct Ha as [Ha1 Ha2]. done.
Qed.

(** A build without the PANORAMA attribute. The service raises
    [AttributeError] without running the engine, and so does the batch tool
    when SCANS is missing too. With SCANS alone the batch tool runs SCANS
    once and, if that fails, raises the message of the SCANS status: the
    retry is skipped. *)
Theorem missing_panorama_mode (cv : cv2) (images : list image) :
  has_Stitcher_PANORAMA cv = false ->
  App.stitch_images cv images
  = mkM [] (Err (AttributeError "module 'cv2' has no attribute 'Stitcher_PANORAMA'"))
  /\ (has_Stitcher_SCANS cv = false ->
      outcome (Batch.stitch_images cv images)
      = Err (AttributeError "module 'cv2' has no attribute 'Stitcher_PANORAMA'")
      /\ stitch_attempts (trace (Batch.stitch_images cv images)) = [])
  /\ (has_Stitcher_SCANS cv = true ->
      stitch_attempts (trace (Batch.stitch_images cv images)) = [SCANS]
      /\ outcome (Batch.stitch_images cv images)
         = (if fst (stitch cv SCANS images) =? Stitcher_OK
            then Ok (snd (stitch cv SCANS images))
            else Err (RuntimeError
                        (Batch.error_msg (fst (stitch cv SCANS images)))))).
Proof.
  intros Hp. split; [|split].
  - by run_stitch.
  - intros Hs. by run_stitch.
  - intros Hs. destruct (stitch cv SCANS images) as [s1 p1] eqn:E1.
    destruct (s1 =? Stitcher_OK) eqn:F1; simpl; rewrite F1; by run_stitch.
Qed.

Lemma missing_panorama_mode_witness :
  App.stitch_images (cv_scans_only 2) [pano_2x3; pano_2x3]
  = mkM [] (Err (AttributeError "module 'cv2' has no attribute 'Stitcher_PANORAMA'"))
  /\ (has_Stitcher_SCANS (cv_scans_only 2) = false ->
      outcome (Batch.stitch_images (cv_scans_only 2) [pano_2x3; pano_2x3])
      = Err (AttributeError "module 'cv2' has no attribute 'Stitcher_PANORAMA'")
      /\ stitch_attempts
           (trace (Batch.stitch_images (cv_scans_only 2) [pano_2x3; pano_2x3]))
         = [])
  /\ (has_Stitcher_SCANS (cv_scans_only 2) = true ->
      stitch_attempts
        (trace (Batch.stitch_images (cv_scans_only 2) [pano_2x3; pano_2x3]))
      = [SCANS]
      /\ outcome (Batch.stitch_images (cv_scans_only 2) [pano_2x3; pano_2x3])
         = Err (RuntimeError (Batch.error_msg 2))).
Proof.
  apply (missing_panorama_mode (cv_scans_only 2) [pano_2x3; pano_2x3]).
  reflexivity.
Defined.

End StitchExtras.

(** ** The loaders: names, listings, successful loads *)

Module LoaderExtras.
Import Pathlib Common SpecWords Observe Run SortFacts LoaderFacts Fixtures.

Lemma rfind_dot_no_dot (s : string) : forall i,
  no_dot s = true -> rfind_dot s i = None.
Proof.
  induction s as [|c s IH]; intros i H; [done|].
  simpl in *. apply andb_true_iff in H as [Hc Hs].
  rewrite (IH _ Hs). by destruct (Ascii.eqb c ".").
Qed.

Lemma rfind_dot_app (stem e : string) : forall i,
  no_dot e = true ->
  rfind_dot (stem +:+ String "." e) i = Some (i + String.length stem)%nat.
Proof.
  induction stem as [|c stem IH]; intros i He; simpl.
  - rewrite (rfind_dot_no_dot e _ He). f_equal. lia.
  - rewrite (IH _ He). f_equal. lia.
Qed.

Lemma drop_string_app (stem rest : string) :
  drop_string (String.length stem) (stem +:+ rest) = rest.
Proof. induction stem as [|c stem IH]; simpl; [by destruct rest|done]. Qed.

Lemma length_append (a b : string) :
  String.length (a +:+ b) = (String.length a + String.length b)%nat.
Proof. induction a as [|c a IH]; simpl; [done|by rewrite IH]. Qed.

Lemma drop_string_split (s : string) : forall i,
  (i <= String.length s)%nat ->
  exists stem, String.length stem = i /\ s = stem +:+ drop_string i s.
Proof.
  induction s as [|c s IH]; intros i Hi.
  - exists EmptyString. simpl in Hi. assert (i = 0)%nat as -> by lia. done.
  - destruct i as [|i].
    + by exists EmptyString.
    + destruct (IH i) as (stem & Hl & Hs); [simpl in Hi; lia|].
      exists (String c stem). split; [simpl; by rewrite Hl|].
      change (String c s = String c (stem +:+ drop_string i s)). by f_equal.
Qed.

(** The suffix of a name that ends in a dot and an extension without
    dots, after a stem that is not empty, is that dot and extension. *)
Lemma suffix_of_ext (stem e : string) :
  stem <> EmptyString -> e <> EmptyString -> no_dot e = true ->
  suffix (stem +:+ String "." e) = String "." e.
Proof.
  intros Hstem He Hnd. unfold suffix.
  rewrite (rfind_dot_app stem e 0 Hnd). simpl.
  rewrite length_append. simpl.
  replace (0 <? String.length stem)%nat with true;
    [|symmetry; apply Nat.ltb_lt; destruct stem; [done|simpl; lia]].
  replace (String.length stem <? String.length stem + S (String.length e) - 1)%nat
    with true;
    [|symmetry; apply Nat.ltb_lt; destruct e; [done|simpl; lia]].
  simpl. apply drop_string_app.
Qed.

(** A suffix that is not empty is the end of the name, after a stem that
    is not empty. *)
Lemma suffix_split (name : string) :
  suffix name <> EmptyString ->
  exists stem, stem <> EmptyString /\ name = stem +:+ suffix name.
Proof.
  unfold suffix. destruct (rfind_dot name 0) as [i|]; [|done].
  destruct ((0 <? i)%nat && (i <? String.length name - 1)%nat) eqn:E; [|done].
  intros _. apply andb_true_iff in E as [H0 H1].
  apply Nat.ltb_lt in H0, H1.
  destruct (drop_string_split name i) as (stem & Hl & Hs); [lia|].
  exists stem. split; [|done]. intros ->. simpl in Hl. lia.
Qed.

(** Which names are loaded: a regular file is selected exactly when its
    name is a stem that is not empty followed by one of the six suffixes
    (so only the last suffix of [a.b.png] counts); a file whose whole name
    is one of the suffixes, such as [.jpg], is not selected. *)
Theorem selected_names (f : dirent) :
  (is_image_file f = true
   <-> d_is_file f = true
       /\ exists stem ext,
            stem <> EmptyString
            /\ ext ∈ [".jpg"; ".jpeg"; ".png"; ".JPG"; ".JPEG"; ".PNG"]
            /\ d_name f = stem +:+ ext)
  /\ (d_name f ∈ [".jpg"; ".jpeg"; ".png"; ".JPG"; ".JPEG"; ".PNG"] ->
      is_image_file f = false).
Proof.
  split.
  - unfold is_image_file, image_extensions.
    rewrite andb_true_iff, bool_decide_eq_true.
    rewrite !elem_of_union, !elem_of_singleton.
    split.
    + intros [Hf Hs]. split; [done|].
      destruct (suffix_split (d_name f)) as (stem & Hstem & Hn).
      { intros E. rewrite E in Hs.
        destruct Hs as [[[[[H|H]|H]|H]|H]|H]; discriminate H. }
      exists stem, (suffix (d_name f)). split; [done|]. split; [|done].
      rewrite !elem_of_cons. tauto.
    + intros [Hf (stem & ext & Hstem & Hext & Hn)]. split; [done|].
      rewrite Hn. rewrite !elem_of_cons, elem_of_nil in Hext.
      destruct Hext as [->|[->|[->|[->|[->|[->|[]]]]]]];
        rewrite suffix_of_ext by done; tauto.
  - intros Hn. unfold is_image_file. apply andb_false_iff. right.
    rewrite !elem_of_cons, elem_of_nil in Hn.
    destruct Hn as [->|[->|[->|[->|[->|[->|[]]]]]]]; by vm_compute.
Qed.

(** Two selected entries with the same name are the same entry. *)
Lemma selected_same_name (f g : dirent) :
  is_image_file f = true -> is_image_file g = true ->
  name_le f g -> name_le g f -> f = g.
Proof.
  unfold is_image_file, name_le. rewrite !andb_true_iff.
  intros [Hf _] [Hg _] Hfg Hgf.
  pose proof (anti_symm String.le _ _ Hfg Hgf) as Hn.
  destruct f, g. simpl in *. by subst.
Qed.

(** The selected files do not depend on the order of the listing. *)
Lemma image_files_of_perm (e1 e2 : list dirent) :
  e1 ≡ₚ e2 -> image_files_of e1 = image_files_of e2.
Proof.
  intros Hp. unfold image_files_of.
  apply (Sorted_unique_strong name_le); [|apply sorted_Sorted..|].
  - intros f g Hf Hg. rewrite sorted_perm in Hf, Hg.
    apply list_elem_of_filter in Hf as [Hf _].
    apply list_elem_of_filter in Hg as [Hg _].
    by apply selected_same_name.
  - by rewrite !sorted_perm, Hp.
Qed.

Lemma for_each_ext {A S} (body1 body2 : A -> S -> M S) (xs : list A) :
  (forall x s, body1 x s = body2 x s) ->
  forall s, for_each xs body1 s = for_each xs body2 s.
Proof.
  intros Hb. induction xs as [|x xs IH]; intros s; simpl; [done|].
  rewrite Hb. unfold bind. destruct (outcome (body2 x s)); [|done].
  by rewrite IH.
Qed.

(** The order in which the directory lists its entries is irrelevant: two
    file systems that agree on the path, on the names of its entries and
    on how paths are written, but list the entries in different orders,
    make each loader do and return exactly the same. *)
Theorem listing_order_is_irrelevant (fs1 fs2 : os) (cv : cv2) (folder : string)
    (e1 e2 : list dirent) :
  path_exists fs1 folder = path_exists fs2 folder ->
  (forall name, path_str fs1 folder name = path_str fs2 folder name) ->
  iterdir fs1 folder = Ok e1 -> iterdir fs2 folder = Ok e2 -> e1 ≡ₚ e2 ->
  image_files_of e1 = image_files_of e2
  /\ App.load_images_from_folder fs1 cv folder
     = App.load_images_from_folder fs2 cv folder
  /\ Batch.load_images_from_folder fs1 cv folder
     = Batch.load_images_from_folder fs2 cv folder.
Proof.
  intros Hex Hstr H1 H2 Hp.
  pose proof (image_files_of_perm e1 e2 Hp) as Hfiles.
  split; [done|].
  destruct (path_exists fs2 folder) eqn:E2.
  - rewrite (app_load_unfold fs1 cv folder e1 Hex H1).
    rewrite (app_load_unfold fs2 cv folder e2 E2 H2).
    rewrite (batch_load_unfold fs1 cv folder e1 Hex H1).
    rewrite (batch_load_unfold fs2 cv folder e2 E2 H2).
    rewrite Hfiles.
    rewrite (for_each_ext (App.load_one fs1 cv folder) (App.load_one fs2 cv folder)).
    2: { intros f acc. unfold App.load_one. by rewrite Hstr. }
    rewrite (for_each_ext (Batch.load_one fs1 cv folder)
               (Batch.load_one fs2 cv folder)).
    2: { intros f acc. unfold Batch.load_one. by rewrite Hstr. }
    done.
  - unfold App.load_images_from_folder, Batch.load_images_from_folder.
    by rewrite Hex, E2.
Qed.

Lemma listing_order_is_irrelevant_witness :
  image_files_of [file "c.png"; file "a.jpg"; file "b.Jpg"]
  = image_files_of [file "a.jpg"; file "c.png"; file "b.Jpg"]
  /\ App.load_images_from_folder
       (fs_with [file "c.png"; file "a.jpg"; file "b.Jpg"]) cv_ok "Images"
     = App.load_images_from_folder
         (fs_with [file "a.jpg"; file "c.png"; file "b.Jpg"]) cv_ok "Images"
  /\ Batch.load_images_from_folder
       (fs_with [file "c.png"; file "a.jpg"; file "b.Jpg"]) cv_ok "Images"
     = Batch.load_images_from_folder
         (fs_with [file "a.jpg"; file "c.png"; file "b.Jpg"]) cv_ok "Images".
Proof.
  apply (listing_order_is_irrelevant
           (fs_with [file "c.png"; file "a.jpg"; file "b.Jpg"])
           (fs_with [file "a.jpg"; file "c.png"; file "b.Jpg"])
           cv_ok "Images");
    [reflexivity | reflexivity | reflexivity | reflexivity
     | apply Permutation_swap].
Defined.

Lemma length_decoded (fs : os) (cv : cv2) (folder : string) (files : list dirent) :
  (length (decoded fs cv folder files) <= length files)%nat.
Proof.
  unfold decoded. induction files as [|f files IH]; [done|].
  cbn [omap list_omap length].
  destruct (imread cv (path_str fs folder (d_name f))); simpl; lia.
Qed.

Lemma app_load_outcome (fs : os) (cv : cv2) (folder : string) :
  outcome (App.load_images_from_folder fs cv folder) = load_outcome fs cv folder.
Proof.
  unfold load_outcome. destruct (path_exists fs folder) eqn:He.
  - destruct (iterdir fs folder) as [entries|e] eqn:Hi.
    + rewrite (app_load_unfold fs cv folder entries He Hi).
      destruct (length (image_files_of entries) <? 2)%nat; [done|].
      destruct (app_load_loop fs cv folder (image_files_of entries)) as (Ho & _).
      rewrite outcome_bind, Ho. by destruct (length _ <? 2)%nat.
    + unfold App.load_images_from_folder. by rewrite He, Hi.
  - unfold App.load_images_from_folder. by rewrite He.
Qed.

Lemma batch_load_outcome (fs : os) (cv : cv2) (folder : string) :
  outcome (Batch.load_images_from_folder fs cv folder) = load_outcome fs cv folder.
Proof.
  unfold load_outcome. destruct (path_exists fs folder) eqn:He.
  - destruct (iterdir fs folder) as [entries|e] eqn:Hi.
    + rewrite (batch_load_unfold fs cv folder entries He Hi).
      destruct (length (image_files_of entries) <? 2)%nat; [done|].
      destruct (batch_load_loop fs cv folder (image_files_of entries)) as (Ho & _).
      rewrite outcome_bind, Ho. by destruct (length _ <? 2)%nat.
    + unfold Batch.load_images_from_folder. by rewrite He, Hi.
  - unfold Batch.load_images_from_folder. by rewrite He.
Qed.

(** What a successful load guarantees, in either program: the directory
    exists and could be listed, and the images returned are the selected
    files that decode, in the order of their names; there are at least two
    of them and no more than there are selected files. An error of the
    listing itself is raised unchanged. *)
Theorem successful_load (fs : os) (cv : cv2) (folder : string) :
  outcome (App.load_images_from_folder fs cv folder)
  = outcome (Batch.load_images_from_folder fs cv folder)
  /\ (forall images,
        outcome (App.load_images_from_folder fs cv folder) = Ok images ->
        path_exists fs folder = true
        /\ exists entries,
             iterdir fs folder = Ok entries
             /\ images = decoded fs cv folder (image_files_of entries)
             /\ (2 <= length images)%nat
             /\ (length images <= length (image_files_of entries))%nat)
  /\ (forall e,
        path_exists fs folder = true -> iterdir fs folder = Err e ->
        App.load_images_from_folder fs cv folder = mkM [] (Err e)
        /\ Batch.load_images_from_folder fs cv folder = mkM [] (Err e)).
Proof.
  split; [by rewrite app_load_outcome, batch_load_outcome|]. split.
  - intros images. rewrite app_load_outcome. unfold load_outcome.
    destruct (path_exists fs folder); [|done].
    destruct (iterdir fs folder) as [entries|e]; [|done].
    destruct (length (image_files_of entries) <? 2)%nat; [done|].
    destruct (length (decoded fs cv folder (image_files_of entries)) <? 2)%nat eqn:E;
      [done|].
    intros [= <-]. split; [done|]. exists entries. split; [done|]. split; [done|].
    apply Nat.ltb_ge in E. split; [done|]. apply length_decoded.
  - intros e He Hi.
    unfold App.load_images_from_folder, Batch.load_images_from_folder.
    by rewrite He, Hi.
Qed.

End LoaderExtras.

(** ** What each stage does to the outside world *)

Module TraceFacts.
Import Pathlib Common SpecWords Observe Run LoaderFacts StitchFacts.

Lemma for_each_events {A S} (P : event -> Prop) (body : A -> S -> M S)
    (xs : list A) :
  (forall x s, Forall P (trace (body x s))) ->
  forall s, Forall P (trace (for_each xs body s)).
Proof.
  intros Hb. induction xs as [|x xs IH]; intros s; simpl; [constructor|].
  rewrite trace_bind. destruct (outcome (body x s)); [|apply Hb].
  apply Forall_app. split; [apply Hb | apply IH].
Qed.

Lemma bind_events {A B} (P : event -> Prop) (m : M A) (k : A -> M B) :
  Forall P (trace m) -> (forall a, Forall P (trace (k a))) ->
  Forall P (trace (bind m k)).
Proof.
  intros Hm Hk. rewrite trace_bind. destruct (outcome m); [|done].
  apply Forall_app. by split.
Qed.

(** The loaders only read and print. *)
Lemma app_load_events (fs : os) (cv : cv2) (folder : string) :
  Forall is_read_or_print (trace (App.load_images_from_folder fs cv folder)).
Proof.
  unfold App.load_images_from_folder.
  destruct (negb (path_exists fs folder)); [constructor|].
  apply bind_events; [constructor|]. intros entries.
  destruct (length (image_files_of entries) <? 2)%nat; [constructor|].
  apply bind_events.
  - apply for_each_events. intros f acc. rewrite app_load_one_run. simpl.
    destruct (imread cv _); repeat constructor.
  - intros images. destruct (length images <? 2)%nat; constructor.
Qed.

Lemma batch_load_events (fs : os) (cv : cv2) (folder : string) :
  Forall is_read_or_print (trace (Batch.load_images_from_folder fs cv folder)).
Proof.
  unfold Batch.load_images_from_folder.
  destruct (negb (path_exists fs folder)); [constructor|].
  apply bind_events; [constructor|]. intros entries.
  destruct (length (image_files_of entries) <? 2)%nat; [constructor|].
  apply bind_events.
  - apply for_each_events. intros f acc. rewrite batch_load_one_run. simpl.
    destruct (imread cv _); repeat constructor.
  - intros images. destruct (length images <? 2)%nat; constructor.
Qed.

(** The stitch functions only run the engine and print. *)
Lemma batch_stitch_events (cv : cv2) (images : list image) :
  Forall is_stitch_or_print (trace (Batch.stitch_images cv images)).
Proof. apply StitchExtras.batch_stitch_summary. Qed.

Lemma read_or_print_no_stitch (t : list event) (mode : StitchMode) :
  Forall is_read_or_print t -> Stitch mode ∉ t.
Proof.
  intros Hall Hin. rewrite Forall_forall in Hall. by apply (Hall _ Hin).
Qed.

Lemma imwrites_app (t1 t2 : list event) :
  imwrites (t1 ++ t2) = imwrites t1 ++ imwrites t2.
Proof. apply omap_app. Qed.

Lemma read_or_print_no_write (t : list event) :
  Forall is_read_or_print t -> imwrites t = [].
Proof.
  induction 1 as [|ev t Hev _ IH]; [done|].
  change (ev :: t) with ([ev] ++ t). rewrite imwrites_app, IH.
  by destruct ev.
Qed.

Lemma stitch_or_print_no_write (t : list event) :
  Forall is_stitch_or_print t -> imwrites t = [].
Proof.
  induction 1 as [|ev t Hev _ IH]; [done|].
  change (ev :: t) with ([ev] ++ t). rewrite imwrites_app, IH.
  by destruct ev.
Qed.

End TraceFacts.

(** ** The HTTP handlers after a successful stitch *)

Module HttpExtras.
Import Numpy Projector Common SpecWords Observe Run Loops ProjectorFacts.
Import LoaderFacts StitchFacts HttpFacts TraceFacts LoaderExtras Fixtures.





Lemma stitch_from_folder_try_chain (fs : os) (cv : cv2) (folder : string)
    (save_output : bool) :
  App.stitch_from_folder_try fs cv folder save_output
  = bind (App.load_images_from_folder fs cv folder) (fun cv_images =>
      bind (print ("Loaded " +:+ str_int (Z.of_nat (length cv_images))
                   +:+ " images from " +:+ folder)) (fun _ =>
        bind (App.stitch_images cv cv_images) (fun pano =>
          bind (App.pano_to_equirectangular cv pano 2048 1024) (fun equirect =>
            bind (if save_output then
                    bind (emit (Imwrite (parent_str fs folder "stitched_output.jpg")))
                      (fun _ =>
                         bind (lift (imwrite cv (parent_str fs folder
                                                   "stitched_output.jpg") equirect))
                           (fun _ =>
                              print ("Saved stitched image to "
                                     +:+ parent_str fs folder "stitched_output.jpg")))
                  else ret tt)
              (fun _ => App.jpeg_response cv equirect "stitched_360.jpg"))))).
Proof. reflexivity. Qed.



(** The first upload that does not decode. *)
Lemma first_bad_upload (cv : cv2) (images : list bytes) :
  mapM (imdecode cv) images = None ->
  exists pre bad post,
    images = pre ++ bad :: post
    /\ Forall (fun d => is_Some (imdecode cv d)) pre
    /\ imdecode cv bad = None.
Proof.
  induction images as [|d images IH]; [done|].
  intros H. destruct (imdecode cv d) as [img|] eqn:Ed.
  - destruct (mapM (imdecode cv) images) as [imgs|] eqn:Em.
    { simpl in H. by rewrite Ed, Em in H. }
    destruct (IH eq_refl) as (pre & bad & post & -> & Hpre & Hbad).
    exists (d :: pre), bad, post. split; [done|]. split; [|done].
    constructor; [by rewrite Ed|done].
  - by exists [], d, images.
Qed.

(** The engine is only ever run on two images or more. If a handler runs
    the engine, then every upload decoded and there were at least two of
    them (for [/stitch-360]), or the loader returned at least two images
    (for [/stitch-from-folder]). *)
Theorem engine_runs_on_two_images (fs : os) (cv : cv2) (mode : StitchMode) :
  (forall images : list bytes,
     Stitch mode ∈ trace (App.stitch_360 cv images) ->
     exists cv_images,
       mapM (imdecode cv) images = Some cv_images
       /\ length cv_images = length images
       /\ (2 <= length cv_images)%nat)
  /\ (forall (folder : string) (save_output : bool),
        Stitch mode ∈ trace (App.stitch_from_folder fs cv folder save_output) ->
        exists cv_images,
          outcome (App.load_images_from_folder fs cv folder) = Ok cv_images
          /\ (2 <= length cv_images)%nat).
Proof.
  split.
  - intros images Hin. unfold App.stitch_360 in Hin.
    destruct (length images <? 2)%nat eqn:El.
    { by apply elem_of_nil in Hin. }
    apply Nat.ltb_ge in El.
    destruct (mapM (imdecode cv) images) as [cv_images|] eqn:Ed.
    + exists cv_images. split; [done|].
      apply length_mapM in Ed. split; [done|lia].
    + exfalso.
      destruct (first_bad_upload cv images Ed) as (pre & bad & post & -> & Hpre & Hbad).
      rewrite try_500 in Hin. cbn [trace] in Hin.
      assert (Ht : App.stitch_360_try cv (pre ++ bad :: post)
                   = mkM (Imdecode <$> (pre ++ [bad]))
                       (Err (ValueError "Invalid image file"))).
      { change (App.stitch_360_try cv (pre ++ bad :: post))
          with (bind (mapM (App.read_image cv) (pre ++ bad :: post))
                  (fun cv_images =>
                     bind (App.stitch_images cv cv_images) (fun pano =>
                       bind (App.pano_to_equirectangular cv pano 2048 1024)
                         (fun equirect =>
                            App.jpeg_response cv equirect "360.jpg")))).
        rewrite (read_images_err cv pre bad post Hpre Hbad).
        by rewrite (bind_err _ _ (ValueError "Invalid image file")). }
      rewrite Ht in Hin. cbn [trace] in Hin.
      apply list_elem_of_fmap in Hin as (d & Hd & _). discriminate Hd.
  - intros folder save Hin. unfold App.stitch_from_folder in Hin.
    rewrite try_500 in Hin. cbn [trace] in Hin.
    rewrite stitch_from_folder_try_chain in Hin.
    destruct (outcome (App.load_images_from_folder fs cv folder))
      as [cv_images|e] eqn:Eo.
    + exists cv_images. split; [done|].
      rewrite app_load_outcome in Eo. unfold load_outcome in Eo.
      destruct (path_exists fs folder); [|done].
      destruct (iterdir fs folder) as [entries|?]; [|done].
      destruct (length (image_files_of entries) <? 2)%nat; [done|].
      destruct (length (decoded fs cv folder (image_files_of entries)) <? 2)%nat
        eqn:E; [done|].
      injection Eo as <-. by apply Nat.ltb_ge in E.
    + exfalso. rewrite (bind_err _ _ e Eo) in Hin. cbn [trace] in Hin.
      by apply (read_or_print_no_stitch _ mode (app_load_events fs cv folder)).
Qed.

End HttpExtras.

(** ** The batch tool's [main] *)

Module MainExtras.
Import Numpy Projector Common SpecWords Observe Run Loops ProjectorFacts.
Import LoaderFacts StitchFacts TraceFacts LoaderExtras Fixtures.

(** What the batch tool's projector does once the maps are built. *)
Lemma batch_project_run (cv : cv2) (pano : image) (output_w output_h : Z)
    (x_map y_map : ndarray2) :
  build_maps (fst (shape pano)) (snd (shape pano)) output_w output_h
  = Ok (x_map, y_map) ->
  Batch.pano_to_equirectangular cv pano output_w output_h
  = mkM [Print (Batch.nl +:+ "Converting to equirectangular ("
                +:+ str_int output_w +:+ "x" +:+ str_int output_h +:+ ")...");
         Remap; Print "✓ Conversion complete!"]
      (Ok (zip_with (zip_with (sample cv pano)) x_map y_map)).
Proof.
  intros E. unfold Batch.pano_to_equirectangular.
  destruct (shape pano) as [h w]. simpl in E.
  unfold mbind, M_bind, bind, lift, print, emit, remap. simpl. by rewrite E.
Qed.

(** The projector of the batch tool at its default size. *)
Lemma batch_project_default_run (cv : cv2) (pano : image) :
  exists equirect,
    Batch.pano_to_equirectangular cv pano 2048 1024
    = mkM [Print (Batch.nl +:+ "Converting to equirectangular ("
                  +:+ str_int 2048 +:+ "x" +:+ str_int 1024 +:+ ")...");
           Remap; Print "✓ Conversion complete!"] (Ok equirect)
    /\ length equirect = Z.to_nat 1024
    /\ Forall (fun row => length row = Z.to_nat 2048) equirect.
Proof.
  destruct (build_maps_spec (fst (shape pano)) (snd (shape pano)) 2048 1024)
    as (xm & ym & E & Sx & Sy & _); [lia..|].
  exists (zip_with (zip_with (sample cv pano)) xm ym). split.
  - by apply batch_project_run.
  - by apply remap_shape.
Qed.

(** The writes of [main], by what [imwrite] does. *)
Lemma save_outputs_run (fs : os) (cv : cv2) (equirect pano : image) :
  Batch.save_outputs fs cv equirect pano
  = (let output_path := path_str fs "Images" "stitched_output.jpg" in
     let pano_path := path_str fs "Images" "panorama.jpg" in
     let saved := Print (Batch.nl +:+ "✓ Saved stitched image to: " +:+ output_path) in
     match imwrite cv output_path equirect with
     | Err e => mkM [Imwrite output_path] (Err e)
     | Ok _ =>
         match imwrite cv pano_path pano with
         | Err e => mkM [Imwrite output_path; saved; Imwrite pano_path] (Err e)
         | Ok _ =>
             mkM [Imwrite output_path; saved; Imwrite pano_path;
                  Print ("✓ Saved panorama to: " +:+ pano_path)] (Ok tt)
         end
     end).
Proof.
  unfold Batch.save_outputs, mbind, M_bind, bind, emit, lift, print.
  cbn [trace outcome app].
  destruct (imwrite cv _ equirect); cbn [trace outcome app]; [|done].
  by destruct (imwrite cv _ pano).
Qed.

Lemma main_try_chain (fs : os) (cv : cv2) :
  Batch.main_try fs cv
  = bind (Batch.load_images_from_folder fs cv "Images") (fun images =>
      bind (Batch.stitch_images cv images) (fun pano =>
        bind (Batch.pano_to_equirectangular cv pano 2048 1024) (fun equirect =>
          Batch.save_outputs fs cv equirect pano))).
Proof. reflexivity. Qed.

(** [main] never raises: it prints the error and returns 1, or returns 0. *)
Lemma main_run (fs : os) (cv : cv2) :
  Batch.main fs cv
  = mkM (trace (Batch.main_try fs cv)
         ++ match outcome (Batch.main_try fs cv) with
            | Ok _ => []
            | Err e => [Print (Batch.nl +:+ "✗ Error: " +:+ str_exn e)]
            end)
      (Ok (match outcome (Batch.main_try fs cv) with Ok _ => 0 | Err _ => 1 end)).
Proof.
  unfold Batch.main, mbind, M_bind, bind, try_, print, emit, ret.
  destruct (Batch.main_try fs cv) as [t [[]|e]]; cbn [trace outcome app];
    by rewrite ?app_nil_r.
Qed.

(** A chain of four steps whose third step is known to succeed. *)
Lemma chain_run {A B C D} (load : M A) (stitch : A -> M B) (project : B -> M C)
    (save : C -> B -> M D) (a : A) (b : B) (t : list event) (c : C) :
  outcome load = Ok a ->
  outcome (stitch a) = Ok b ->
  project b = mkM t (Ok c) ->
  bind load (fun a => bind (stitch a) (fun b =>
    bind (project b) (fun c => save c b)))
  = mkM (trace load ++ trace (stitch a) ++ t ++ trace (save c b))
        (outcome (save c b)).
Proof.
  intros Hl Hs Hp. unfold bind. rewrite Hl, Hs, Hp. cbn [trace outcome].
  reflexivity.
Qed.

(** The body of [main], by the step that fails. *)
Lemma main_try_load_err (fs : os) (cv : cv2) (e : exn) :
  outcome (Batch.load_images_from_folder fs cv "Images") = Err e ->
  Batch.main_try fs cv
  = mkM (trace (Batch.load_images_from_folder fs cv "Images")) (Err e).
Proof. intros H. rewrite main_try_chain. apply bind_err. exact H. Qed.

Lemma main_try_stitch_err (fs : os) (cv : cv2) (images : list image) (e : exn) :
  outcome (Batch.load_images_from_folder fs cv "Images") = Ok images ->
  outcome (Batch.stitch_images cv images) = Err e ->
  Batch.main_try fs cv
  = mkM (trace (Batch.load_images_from_folder fs cv "Images")
         ++ trace (Batch.stitch_images cv images)) (Err e).
Proof.
  intros Hl Hs. rewrite main_try_chain. rewrite (bind_ok _ _ images Hl).
  rewrite (bind_err _ _ e Hs). reflexivity.
Qed.

Lemma main_try_after_stitch (fs : os) (cv : cv2) (images : list image)
    (pano : image) :
  outcome (Batch.load_images_from_folder fs cv "Images") = Ok images ->
  outcome (Batch.stitch_images cv images) = Ok pano ->
  exists equirect,
    length equirect = Z.to_nat 1024
    /\ Forall (fun row => length row = Z.to_nat 2048) equirect
    /\ Batch.main_try fs cv
       = mkM (trace (Batch.load_images_from_folder fs cv "Images")
              ++ trace (Batch.stitch_images cv images)
              ++ [Print (Batch.nl +:+ "Converting to equirectangular ("
                         +:+ str_int 2048 +:+ "x" +:+ str_int 1024 +:+ ")...");
                  Remap; Print "✓ Conversion complete!"]
              ++ trace (Batch.save_outputs fs cv equirect pano))
           (outcome (Batch.save_outputs fs cv equirect pano)).
Proof.
  intros Hl Hs.
  destruct (batch_project_default_run cv pano) as (equirect & Hr & Hrows & Hcols).
  exists equirect. split; [exact Hrows|]. split; [exact Hcols|].
  rewrite main_try_chain.
  exact (chain_run (Batch.load_images_from_folder fs cv "Images")
           (Batch.stitch_images cv)
           (fun pano => Batch.pano_to_equirectangular cv pano 2048 1024)
           (fun equirect pano => Batch.save_outputs fs cv equirect pano)
           images pano _ equirect Hl Hs Hr).
Qed.

(** The error message of [main] is no write. *)
Lemma main_error_prints_nothing_written {A} (r : result A) :
  imwrites match r with
           | Ok _ => []
           | Err e => [Print (Batch.nl +:+ "✗ Error: " +:+ str_exn e)]
           end = [].
Proof. destruct r; reflexivity. Qed.

(** The exit status of the batch tool. [main] never raises. When loading
    or stitching fails it prints the error after what was done so far,
    returns 1 and has not called [cv2.imwrite]. Whatever happens, its calls
    of [cv2.imwrite] are for [stitched_output.jpg] and then [panorama.jpg],
    at most once each; when it returns 0 it has made both calls. *)
Theorem main_exit_status (fs : os) (cv : cv2) :
  (forall e,
     outcome (Batch.load_images_from_folder fs cv "Images") = Err e ->
     Batch.main fs cv
     = mkM (trace (Batch.load_images_from_folder fs cv "Images")
            ++ [Print (Batch.nl +:+ "✗ Error: " +:+ str_exn e)]) (Ok 1))
  /\ (forall images e,
        outcome (Batch.load_images_from_folder fs cv "Images") = Ok images ->
        outcome (Batch.stitch_images cv images) = Err e ->
        Batch.main fs cv
        = mkM ((trace (Batch.load_images_from_folder fs cv "Images")
                ++ trace (Batch.stitch_images cv images))
               ++ [Print (Batch.nl +:+ "✗ Error: " +:+ str_exn e)]) (Ok 1))
  /\ (outcome (Batch.main fs cv) = Ok 0 \/ outcome (Batch.main fs cv) = Ok 1)
  /\ imwrites (trace (Batch.main fs cv))
     `prefix_of` [path_str fs "Images" "stitched_output.jpg";
                  path_str fs "Images" "panorama.jpg"]
  /\ (outcome (Batch.main fs cv) = Ok 0 ->
      imwrites (trace (Batch.main fs cv))
      = [path_str fs "Images" "stitched_output.jpg";
         path_str fs "Images" "panorama.jpg"]).
Proof.
  pose proof (read_or_print_no_write _ (batch_load_events fs cv "Images")) as Hnl.
  rewrite main_run. generalize (Batch.main_try fs cv)
    (main_try_load_err fs cv) (main_try_stitch_err fs cv)
    (main_try_after_stitch fs cv).
  intros m Hle Hse Has.
  split; [|split; [|split]].
  - intros e He. rewrite (Hle e He). reflexivity.
  - intros images e Hl Hs. rewrite (Hse images e Hl Hs). reflexivity.
  - cbn [outcome]. destruct (outcome m); [left | right]; reflexivity.
  - cbn [trace outcome]. rewrite imwrites_app.
    rewrite main_error_prints_nothing_written, app_nil_r.
    destruct (outcome (Batch.load_images_from_folder fs cv "Images"))
      as [images|e] eqn:Hl.
    2: { rewrite (Hle e eq_refl). cbn [trace outcome].
         rewrite Hnl. split; [apply prefix_nil | discriminate]. }
    pose proof (stitch_or_print_no_write _ (batch_stitch_events cv images)) as Hns.
    destruct (outcome (Batch.stitch_images cv images)) as [pano|e] eqn:Hs.
    2: { rewrite (Hse images e eq_refl Hs). cbn [trace outcome].
         rewrite imwrites_app, Hnl, Hns. split; [apply prefix_nil | discriminate]. }
    destruct (Has images pano eq_refl Hs) as (equirect & _ & _ & ->).
    cbn [trace outcome]. rewrite !imwrites_app, Hnl, Hns.
    rewrite save_outputs_run. cbn zeta.
    destruct (imwrite cv _ equirect); [destruct (imwrite cv _ pano)|];
      cbn [trace outcome]; split.
    all: try discriminate.
    all: unfold imwrites; cbn [omap list_omap app].
    + reflexivity.
    + reflexivity.
    + reflexivity.
    + by exists [path_str fs "Images" "panorama.jpg"].
Qed.



End MainExtras.
